(** * Patient document portal

    The Express application [registerRoutes] builds (the document routes,
    the multer upload and the error middleware), the JWT authentication of
    [setupAuth] and [isAuthenticated], the Drizzle schema of users and
    documents, and [validateFile] of the upload form, embedded as functions
    over an explicit world: the database tables and the object store.
    Tokens are verified from their signature alone. *)

From Stdlib Require Import ZArith NArith Ascii String.
From stdpp Require Import gmap strings list fin_maps.

Local Open Scope string_scope.

(** ** Strings of the platform

    A JavaScript string is modelled by a [string] whose characters stand
    for code units below 256. *)

Module Js.

Definition code (c : ascii) : N := N_of_ascii c.

Definition between (lo hi : N) (c : ascii) : bool :=
  ((lo <=? code c) && (code c <=? hi))%N.

(** [String.prototype.toLowerCase] on code units below 256: the letters
    A-Z and the Latin-1 capitals U+00C0..U+00DE (U+00D7 apart) move up by
    32; every other code unit is its own lower case. *)
Definition lower_char (c : ascii) : ascii :=
  if between 65 90 c then ascii_of_N (code c + 32)
  else if between 192 222 c && negb (code c =? 215)%N
       then ascii_of_N (code c + 32)
       else c.

Fixpoint toLowerCase (s : string) : string :=
  match s with
  | EmptyString => EmptyString
  | String c s' => String (lower_char c) (toLowerCase s')
  end.

(** [s.startsWith(p)] *)
Definition startsWith (s p : string) : bool := String.prefix p s.

(** [s.substring(n)] *)
Definition substring_from (n : nat) (s : string) : string :=
  String.substring n (String.length s - n) s.

(** [s.slice(0, n)] for [n] not negative *)
Definition slice0 (n : nat) (s : string) : string := String.substring 0 n s.

(** A string is falsy exactly when it is empty. *)
Definition truthy (s : string) : bool := negb (s =? EmptyString).

Definition hex_digit (n : N) : ascii :=
  if (n <? 10)%N then ascii_of_N (48 + n) else ascii_of_N (55 + n).

Definition percent (byte : N) : string :=
  String "%" (String (hex_digit (byte / 16)) (String (hex_digit (byte mod 16)) EmptyString)).

(** The characters [encodeURIComponent] leaves alone:
    [A-Z a-z 0-9 - _ . ! ~ * ' ( )]. *)
Definition uri_unreserved (c : ascii) : bool :=
  between 65 90 c || between 97 122 c || between 48 57 c
  || existsb (fun n => (n =? code c)%N) [45; 95; 46; 33; 126; 42; 39; 40; 41]%N.

(** [encodeURIComponent]: every other code unit is written as the
    percent-escapes of its UTF-8 bytes (one byte below 128, two from 128
    to 255). *)
Definition encode_char (c : ascii) : string :=
  if uri_unreserved c then String c EmptyString
  else if (code c <? 128)%N then percent (code c)
  else percent (192 + code c / 64) ++ percent (128 + code c mod 64).

Fixpoint encodeURIComponent (s : string) : string :=
  match s with
  | EmptyString => EmptyString
  | String c s' => encode_char c ++ encodeURIComponent s'
  end.

Definition is_percent (c : ascii) : bool := (code c =? 37)%N.

Definition hex_value (c : ascii) : option N :=
  if between 48 57 c then Some (code c - 48)%N
  else if between 65 70 c then Some (code c - 55)%N
  else if between 97 102 c then Some (code c - 87)%N
  else None.

(** [decodeURIComponent], for the code units below 256: an escape of one
    byte below 128, or of the two UTF-8 bytes of a code unit from 128 to
    255, is read back; anything else after a percent sign is refused
    ([None] stands for the [URIError], and for code points the model of
    strings leaves out). *)
Fixpoint decodeURIComponent (s : string) : option string :=
  match s with
  | EmptyString => Some EmptyString
  | String c s1 =>
      if is_percent c then
        match s1 with
        | String h1 (String h2 s2) =>
            match hex_value h1, hex_value h2 with
            | Some a, Some b =>
                let byte := (16 * a + b)%N in
                if (byte <? 128)%N
                then option_map (String (ascii_of_N byte)) (decodeURIComponent s2)
                else if (byte =? 194)%N || (byte =? 195)%N then
                  match s2 with
                  | String p (String k1 (String k2 s3)) =>
                      if is_percent p then
                        match hex_value k1, hex_value k2 with
                        | Some a', Some b' =>
                            let byte2 := (16 * a' + b')%N in
                            if (128 <=? byte2)%N && (byte2 <? 192)%N
                            then option_map
                                   (String (ascii_of_N ((byte - 192) * 64 + (byte2 - 128))))
                                   (decodeURIComponent s3)
                            else None
                        | _, _ => None
                        end
                      else None
                  | _ => None
                  end
                else None
            | _, _ => None
            end
        | _ => None
        end
      else option_map (String c) (decodeURIComponent s1)
  end.

(** The bytes of a string in UTF-8: one byte for a code unit below 128,
    two from 128 to 255. *)
Definition utf8_char (c : ascii) : string :=
  if (code c <? 128)%N then String c EmptyString
  else String (ascii_of_N (192 + code c / 64))
              (String (ascii_of_N (128 + code c mod 64)) EmptyString).

Fixpoint utf8 (s : string) : string :=
  match s with
  | EmptyString => EmptyString
  | String c s' => utf8_char c ++ utf8 s'
  end.

(** [Buffer.byteLength(s)] *)
Fixpoint utf8Length (s : string) : N :=
  match s with
  | EmptyString => 0
  | String c s' => (if (code c <? 128)%N then 1 else 2) + utf8Length s'
  end.

(** [c.repeat(n)] for a string [c] of one character *)
Definition repeat (c : ascii) (n : N) : string := N.iter n (String c) EmptyString.

(** [s.includes(p)]: [p] occurs in [s] at some index. *)
Fixpoint includes (s p : string) : bool :=
  String.prefix p s
  || match s with
     | EmptyString => false
     | String _ s' => includes s' p
     end.

End Js.

(** ** [path.extname] (POSIX flavour of Node's [path] module)

    The loop of the library walks the path from its last character to its
    first; [ExtState] is the set of its local variables, [ext_done] its
    [break]. Indices are [Z] because the library starts them at [-1]. *)

Module Path.

Record ExtState := mkExt {
  startDot : Z;
  startPart : Z;
  ext_end : Z;
  matchedSlash : bool;
  preDotState : Z;
  ext_done : bool
}.

Definition ext_init : ExtState :=
  mkExt (-1) 0 (-1) true 0 false.

Definition is_slash (c : ascii) : bool := (N_of_ascii c =? 47)%N.
Definition is_dot (c : ascii) : bool := (N_of_ascii c =? 46)%N.

(** One turn of the loop, at index [i] holding character [c]. *)
Definition ext_step (i : Z) (c : ascii) (st : ExtState) : ExtState :=
  if ext_done st then st
  else if is_slash c then
    if negb (matchedSlash st)
    then mkExt (startDot st) (i + 1) (ext_end st) (matchedSlash st) (preDotState st) true
    else st
  else
    let st1 :=
      if (ext_end st =? -1)%Z
      then mkExt (startDot st) (startPart st) (i + 1) false (preDotState st) false
      else st in
    if is_dot c then
      if (startDot st1 =? -1)%Z
      then mkExt i (startPart st1) (ext_end st1) (matchedSlash st1) (preDotState st1) false
      else if negb (preDotState st1 =? 1)%Z
           then mkExt (startDot st1) (startPart st1) (ext_end st1) (matchedSlash st1) 1 false
           else st1
    else if negb (startDot st1 =? -1)%Z
         then mkExt (startDot st1) (startPart st1) (ext_end st1) (matchedSlash st1) (-1) false
         else st1.

(** The characters of [s] from index [i] on, visited last first. *)
Fixpoint ext_loop (i : Z) (s : string) (st : ExtState) : ExtState :=
  match s with
  | EmptyString => st
  | String c s' => ext_step i c (ext_loop (i + 1) s' st)
  end.

Definition extname (path : string) : string :=
  let st := ext_loop 0 path ext_init in
  if (startDot st =? -1)%Z
     || (ext_end st =? -1)%Z
     || (preDotState st =? 0)%Z
     || ((preDotState st =? 1)%Z
         && (startDot st =? ext_end st - 1)%Z
         && (startDot st =? startPart st + 1)%Z)
  then EmptyString
  else String.substring (Z.to_nat (startDot st))
                        (Z.to_nat (ext_end st - startDot st)) path.

(** A name made of plain characters: no dot, no slash. *)
Fixpoint plain (s : string) : bool :=
  match s with
  | EmptyString => true
  | String c s' => negb (is_dot c) && negb (is_slash c) && plain s'
  end.

End Path.

(** ** Data model (the schema of [users] and [documents]) *)

(** A row of the [users] table. Every column but [id] is nullable. *)
Module User.
Record t := mk {
  id : string;
  email : option string;
  firstName : option string;
  lastName : option string;
  profileImageUrl : option string;
  passwordHash : option string;
  createdAt : option N;
  updatedAt : option N
}.
End User.

(** [typeof users.$inferInsert]: [id] and the timestamps have defaults. *)
Module UpsertUser.
Record t := mk {
  id : option string;
  email : option string;
  firstName : option string;
  lastName : option string;
  profileImageUrl : option string;
  passwordHash : option string
}.
End UpsertUser.


(** A row of the [documents] table. [category] is a [text] column: the
    schema does not restrict it to [documentCategories]. *)
Module Document.
Record t := mk {
  id : string;
  filename : string;
  originalFilename : string;
  filepath : string;
  filesize : N;
  mimetype : string;
  category : string;
  userId : string;
  createdAt : N
}.
End Document.

(** [z.infer<typeof insertDocumentSchema>]: the insert schema without [id]
    and [createdAt]; the two columns with a default are optional. *)
Module InsertDocument.
Record t := mk {
  filename : string;
  originalFilename : string;
  filepath : string;
  filesize : N;
  mimetype : option string;
  category : option string;
  userId : string
}.
End InsertDocument.

(** The bytes of a file are kept abstract: [content] names them, [byteLength] is
    their number. *)
Record Buffer := mkBuffer { content : string; byteLength : N }.

(** ** Exceptions and results *)

Inductive exn :=
| ObjectNotFoundError
| ZodError
| MulterError (code : string) (message : string)
| Error (message : string).

Inductive result (A : Type) :=
| Ok (a : A)
| Throw (e : exn).
Arguments Ok {A} a.
Arguments Throw {A} e.

(** ** What a run supplies

    The values the code draws from outside: the clock, [randomUUID()] of
    the upload handler, the [gen_random_uuid()] default of a primary key,
    and [process.env.JWT_SECRET] ([None] when it is not set). The clock is
    in seconds. *)
Record Env := mkEnv {
  now : N;
  randomUUID : string;
  gen_random_uuid : string;
  process_env_JWT_SECRET : option string
}.

(** ** Interfaces of the two stores *)

(** The methods of [storage] the routes call. A statement that throws
    leaves the tables as they were. The defaults of the [id] and timestamp
    columns are passed in from [Env]. *)
Class IStorage (DB : Type) := {
  getUser : string -> DB -> result (option User.t);
  getUserByEmail : string -> DB -> result (option User.t);
  upsertUser : string -> N -> UpsertUser.t -> DB -> result (User.t * DB);
  getDocument : string -> DB -> result (option Document.t);
  getDocumentsByUser : string -> DB -> result (list Document.t);
  createDocument : string -> N -> InsertDocument.t -> DB -> result (Document.t * DB);
  deleteDocument : string -> DB -> result (bool * DB)
}.

Record ObjectAclPolicy := mkAcl { owner : string; visibility : string }.

(** What reading an object's stream gives: all its bytes, an error before
    the first byte (the headers are not sent yet), or an error after some
    bytes went out. *)
Inductive StreamResult :=
| StreamEnd (data : Buffer)
| StreamErrorEarly
| StreamErrorLate (sent : Buffer).

(** The methods of [ObjectStorageService], [setObjectAclPolicy], and
    [createReadStream] of the file handle [getObjectEntityFile] returns. *)
Class ObjectStorage (OS File : Type) := {
  uploadBuffer : Buffer -> string -> string -> OS -> result OS;
  getObjectEntityFile : string -> OS -> result File;
  setObjectAclPolicy : File -> ObjectAclPolicy -> OS -> result OS;
  deleteObject : string -> OS -> result OS;
  createReadStream : File -> OS -> StreamResult
}.

(** ** Requests and responses *)

(** The value of a key of [req.body] after multer: a string, or an array
    when the form repeats the key. *)
Inductive BodyValue :=
| BString (s : string)
| BComposite.

(** A file part of a multipart form, as busboy hands it to multer. *)
Record FilePart := mkFilePart {
  fieldname : string;
  originalname : string;
  mimetype : string;
  buffer : Buffer
}.

(** A part of a multipart body: a text field named [category], or a file
    part. *)
Inductive FormPart :=
| TextField (value : string)
| FileField (file : FilePart).

(** The parts of a form, in the order of the body. *)
Record MultipartForm := mkForm {
  form_parts : list FormPart
}.

(** The file parts among the parts, and the values of the text fields. *)
Definition part_files (parts : list FormPart) : list FilePart :=
  flat_map (fun part => match part with
                        | FileField file => [file]
                        | TextField _ => []
                        end) parts.

Definition part_fields (parts : list FormPart) : list string :=
  flat_map (fun part => match part with
                        | TextField value => [value]
                        | FileField _ => []
                        end) parts.

Definition form_files (form : MultipartForm) : list FilePart :=
  part_files (form_parts form).

Definition form_fields (form : MultipartForm) : list string :=
  part_fields (form_parts form).

(** [appendField(req.body, "category", value)]: the first value is set as
    a string, a later one turns the key into an array. *)
Definition appendField (body : option BodyValue) (value : string) : option BodyValue :=
  match body with
  | None => Some (BString value)
  | Some _ => Some BComposite
  end.

(** [req.body.category] once every text field is appended. *)
Definition form_category (form : MultipartForm) : option BodyValue :=
  fold_left appendField (form_fields form) None.

(** The JSON body of [/api/signup] and [/api/login]; a key is absent or a
    string. *)
Record Credentials := mkCredentials {
  cred_email : option string;
  cred_password : option string;
  cred_firstName : option string;
  cred_lastName : option string
}.

Inductive Route :=
| PostSignup
| PostLogin
| GetLogout
| GetAuthUser
| GetDocuments
| PostDocumentsUpload
| GetDocumentDownload
| GetDocumentPreview
| DeleteDocumentById.

Record Request := mkRequest {
  route : Route;
  authorization : option string;
  params_id : string;
  body : Credentials;
  multipart : option MultipartForm
}.

Inductive Payload :=
| NoBody
| JsonMessage (message : string)
| JsonUser (user : option User.t)
| JsonSession (token : string) (user : User.t)
| JsonDocuments (docs : list Document.t)
| JsonDocument (doc : Document.t)
| Stream (data : Buffer) (complete : bool).

Record Response := mkResponse {
  status : Z;
  headers : list (string * string);
  payload : Payload
}.

(** What a route does with a request: it answers, or hands an error on with
    [next(err)]. *)
Inductive Outcome :=
| Respond (r : Response)
| Next (e : exn).

(** A fresh [res]. *)
Definition res0 : Response := mkResponse 200 [] NoBody.

(** [res.setHeader(name, value)] replaces an earlier value. *)
Definition setHeader (name value : string) (res : Response) : Response :=
  mkResponse (status res)
             ((name, value) :: List.filter (fun h => negb (fst h =? name)) (headers res))
             (payload res).

Definition getHeader (name : string) (res : Response) : option string :=
  snd <$> List.find (fun h => fst h =? name) (headers res).

(** [res.status(code)] *)
Definition set_status (code : Z) (res : Response) : Response :=
  mkResponse code (headers res) (payload res).

(** [res.json(value)] *)
Definition json (p : Payload) (res : Response) : Response :=
  let res' := setHeader "Content-Type" "application/json; charset=utf-8" res in
  mkResponse (status res') (headers res') p.

(** [res.status(code).json({ message })] *)
Definition json_message (code : Z) (message : string) (res : Response) : Response :=
  json (JsonMessage message) (set_status code res).

(** ** The world and the monad of the handlers

    A handler runs over the database and the object store. A computation
    returns or throws; what it wrote before throwing stays written. *)

(** The payload of a token: [DecodedToken]. *)
Record DecodedToken := mkToken {
  tok_userId : string;
  tok_email : string;
  iat : N;
  exp : N
}.

Record World (DB OS : Type) := mkWorld {
  db : DB;
  os : OS
}.
Arguments mkWorld {DB OS} db os.
Arguments db {DB OS} w.
Arguments os {DB OS} w.

Definition M (W A : Type) : Type := W -> result A * W.

Definition ret {W A} (a : A) : M W A := fun w => (Ok a, w).

Definition throw {W A} (e : exn) : M W A := fun w => (Throw e, w).

Definition bind {W A B} (m : M W A) (k : A -> M W B) : M W B :=
  fun w => match m w with
           | (Ok a, w') => k a w'
           | (Throw e, w') => (Throw e, w')
           end.

(** [try { m } catch (error) { h error }] *)
Definition try_catch {W A} (m : M W A) (h : exn -> M W A) : M W A :=
  fun w => match m w with
           | (Ok a, w') => (Ok a, w')
           | (Throw e, w') => h e w'
           end.

(** [const x = await m; k] and [await m; k] *)
Notation "'let!' x ':=' m 'in' k" := (bind m (fun x => k))
  (at level 10, x name, m at level 100, k at level 200).
Notation "'do!' m 'in' k" := (bind m (fun _ => k))
  (at level 10, m at level 100, k at level 200).

Section Lifting.
Context {DB OS : Type}.

(** A query of the database. *)
Definition query {A} (q : DB -> result A) : M (World DB OS) A :=
  fun w => (q (db w), w).

(** A statement that writes the database. *)
Definition statement {A} (q : DB -> result (A * DB)) : M (World DB OS) A :=
  fun w => match q (db w) with
           | Ok (a, d) => (Ok a, mkWorld d (os w))
           | Throw e => (Throw e, w)
           end.

(** A read of the object store. *)
Definition fetch {A} (q : OS -> result A) : M (World DB OS) A :=
  fun w => (q (os w), w).

(** A write of the object store. *)
Definition store (q : OS -> result OS) : M (World DB OS) unit :=
  fun w => match q (os w) with
           | Ok o => (Ok tt, mkWorld (db w) o)
           | Throw e => (Throw e, w)
           end.
End Lifting.

(** ** Authentication: [generateToken], [verifyToken], [setupAuth], [isAuthenticated] *)

Definition JWT_EXPIRY : N := 7 * 24 * 60 * 60.

(** [bcrypt.hash] and [bcrypt.compare], symbolically. bcrypt reads the
    first 72 bytes of a password: the hash is a tagged copy of them, which
    the passwords that begin with these bytes match, and no other. *)
Definition bcrypt_hash (password : string) : string :=
  "$2b$12$" ++ Js.slice0 72 (Js.utf8 password).
Definition bcrypt_compare (password hash : string) : bool :=
  hash =? bcrypt_hash password.

(** [jsonwebtoken], symbolically. The compact serialisation of a token is
    a string that writes the four claims one after the other and ends with
    the signature; the signature under a secret stands for the HMAC and is
    the secret itself. A token verifies under the secret it was signed
    with and under no other, whoever signed it; nothing is kept about the
    tokens that were signed. *)
Module Jwt.

(** A string, written so that it can be read back from the front of a
    longer one: a mark before each character, and a closing mark. *)
Fixpoint write_string (s : string) : string :=
  match s with
  | EmptyString => "."
  | String c s' => String "+" (String c (write_string s'))
  end.

Fixpoint read_string (t : string) : option (string * string) :=
  match t with
  | String m t1 =>
      if (Js.code m =? 46)%N then Some (EmptyString, t1)
      else if (Js.code m =? 43)%N then
        match t1 with
        | String c t2 =>
            match read_string t2 with
            | Some (s, rest) => Some (String c s, rest)
            | None => None
            end
        | EmptyString => None
        end
      else None
  | EmptyString => None
  end.

(** A number, as its binary digits from the lowest, and a closing mark. *)
Fixpoint write_positive (p : positive) : string :=
  match p with
  | xH => "."
  | xO p' => String "0" (write_positive p')
  | xI p' => String "1" (write_positive p')
  end.

Fixpoint read_positive (t : string) : option (positive * string) :=
  match t with
  | String m t1 =>
      if (Js.code m =? 46)%N then Some (xH, t1)
      else if (Js.code m =? 48)%N then
        match read_positive t1 with
        | Some (p, rest) => Some (xO p, rest)
        | None => None
        end
      else if (Js.code m =? 49)%N then
        match read_positive t1 with
        | Some (p, rest) => Some (xI p, rest)
        | None => None
        end
      else None
  | EmptyString => None
  end.

Definition write_N (n : N) : string :=
  match n with
  | N0 => "z"
  | Npos p => String "p" (write_positive p)
  end.

Definition read_N (t : string) : option (N * string) :=
  match t with
  | String m t1 =>
      if (Js.code m =? 122)%N then Some (N0, t1)
      else if (Js.code m =? 112)%N then
        match read_positive t1 with
        | Some (p, rest) => Some (Npos p, rest)
        | None => None
        end
      else None
  | EmptyString => None
  end.

(** [jwt.sign(payload, secret)], the payload with its [iat] and [exp]. *)
Definition sign (payload : DecodedToken) (secret : string) : string :=
  write_string (tok_userId payload) ++ write_string (tok_email payload)
  ++ write_N (iat payload) ++ write_N (exp payload) ++ secret.

(** The payload of a token whose signature is valid under [secret];
    [None] for any other string. *)
Definition decode (token secret : string) : option DecodedToken :=
  match read_string token with
  | Some (userId, t1) =>
      match read_string t1 with
      | Some (email, t2) =>
          match read_N t2 with
          | Some (issued, t3) =>
              match read_N t3 with
              | Some (expires, signature) =>
                  if signature =? secret
                  then Some (mkToken userId email issued expires)
                  else None
              | None => None
              end
          | None => None
          end
      | None => None
      end
  | None => None
  end.

(** [jwt.verify(token, secret)] at the time [clock]: the payload when the
    signature is valid and the token has not expired; [None] stands for
    the error thrown otherwise. *)
Definition verify (clock : N) (token secret : string) : option DecodedToken :=
  match decode token secret with
  | Some payload => if (clock <? exp payload)%N then Some payload else None
  | None => None
  end.

End Jwt.

(** [JWT_SECRET]: [process.env.JWT_SECRET || "your-secret-key-change-in-production"] *)
Definition JWT_SECRET (env : Env) : string :=
  match process_env_JWT_SECRET env with
  | Some secret => if Js.truthy secret then secret
                   else "your-secret-key-change-in-production"
  | None => "your-secret-key-change-in-production"
  end.

(** [generateToken]: the token is signed at the time of the call and
    expires [JWT_EXPIRY] later. *)
Definition generateToken (env : Env) (userId email : string) : string :=
  Jwt.sign (mkToken userId email (now env) (now env + JWT_EXPIRY)) (JWT_SECRET env).

(** [verifyToken]: the payload, or [null] (here [None]) when [jwt.verify]
    throws. *)
Definition verifyToken (env : Env) (token : string) : option DecodedToken :=
  Jwt.verify (now env) token (JWT_SECRET env).

(** [req.user] as [isAuthenticated] sets it; [claims_sub] is
    [req.user.claims.sub]. *)
Record ReqUser := mkReqUser {
  ru_id : string;
  ru_email : string;
  claims_sub : string
}.

(** A middleware answers, or calls [next()] with what it attached to the
    request. *)
Inductive Middleware (A : Type) :=
| Answered (r : Response)
| Continue (a : A).
Arguments Answered {A} r.
Arguments Continue {A} a.

Definition isAuthenticated (env : Env) (req : Request) : Middleware ReqUser :=
  match authorization req with
  | None => Answered (json_message 401 "Unauthorized" res0)
  | Some authHeader =>
      if negb (Js.truthy authHeader) || negb (Js.startsWith authHeader "Bearer ")
      then Answered (json_message 401 "Unauthorized" res0)
      else
        let token := Js.substring_from 7 authHeader in
        match verifyToken env token with
        | None => Answered (json_message 401 "Invalid or expired token" res0)
        | Some decoded =>
            Continue (mkReqUser (tok_userId decoded) (tok_email decoded) (tok_userId decoded))
        end
  end.

Section JwtAuth.
Context {DB OS : Type} `{!IStorage DB}.
Local Abbreviation W := (World DB OS).

(** [app.post("/api/signup", ...)]. [!email || !password] holds when a
    key is absent or the empty string. *)
Definition signup (env : Env) (req : Request) : M W Response :=
  try_catch
    (let firstName := default EmptyString (cred_firstName (body req)) in
     let lastName := default EmptyString (cred_lastName (body req)) in
     match cred_email (body req), cred_password (body req) with
     | Some email, Some password =>
         if negb (Js.truthy email) || negb (Js.truthy password)
         then ret (json_message 400 "Email and password required" res0)
         else
           let! existing := query (getUserByEmail email) in
           match existing with
           | Some _ => ret (json_message 400 "User already exists" res0)
           | None =>
               let passwordHash := bcrypt_hash password in
               let! user := statement (upsertUser (gen_random_uuid env) (now env)
                         (UpsertUser.mk None (Some email) (Some firstName) (Some lastName)
                                        None (Some passwordHash))) in
               let token := generateToken env (User.id user)
                             (default EmptyString (User.email user)) in
               ret (json (JsonSession token user) (set_status 201 res0))
           end
     | _, _ => ret (json_message 400 "Email and password required" res0)
     end)
    (fun _ => ret (json_message 500 "Signup failed" res0)).

(** [app.post("/api/login", ...)] *)
Definition login (env : Env) (req : Request) : M W Response :=
  try_catch
    (match cred_email (body req), cred_password (body req) with
     | Some email, Some password =>
         if negb (Js.truthy email) || negb (Js.truthy password)
         then ret (json_message 400 "Email and password required" res0)
         else
           let! user := query (getUserByEmail email) in
           match user with
           | None => ret (json_message 401 "Invalid credentials" res0)
           | Some user =>
               match User.passwordHash user with
               | None => ret (json_message 401 "Invalid credentials" res0)
               | Some hash =>
                   if negb (Js.truthy hash)
                   then ret (json_message 401 "Invalid credentials" res0)
                   else if negb (bcrypt_compare password hash)
                   then ret (json_message 401 "Invalid credentials" res0)
                   else
                     let token := generateToken env (User.id user)
                                   (default EmptyString (User.email user)) in
                     ret (json (JsonSession token user) res0)
               end
           end
     | _, _ => ret (json_message 400 "Email and password required" res0)
     end)
    (fun _ => ret (json_message 500 "Login failed" res0)).

(** [app.get("/api/logout", ...)] *)
Definition logout : M W Response :=
  ret (json_message 200 "Logged out successfully" res0).

End JwtAuth.
Arguments Answered {A} r.
Arguments Continue {A} a.

(** ** The routes of [registerRoutes] *)

Definition PDF : string := "application/pdf".

(** [fileFilter]: [cb(null, true)] is [Ok true], [cb(new Error(...))] is
    [Throw]. *)
Definition fileFilter (file : FilePart) : result bool :=
  let ext := Js.toLowerCase (Path.extname (originalname file)) in
  if (mimetype file =? PDF) && (ext =? ".pdf")
  then Ok true
  else Throw (Error "Only PDF files are allowed").

(** [limits.fileSize], and the [limits.fieldSize] busboy takes when none
    is given. *)
Definition fileSize : N := 10 * 1024 * 1024.
Definition fieldSize : N := 1024 * 1024.

(** [upload.single("file")] with memory storage. multer takes the parts in
    the order of the body. A text field whose value reaches
    [limits.fieldSize] bytes aborts with [LIMIT_FIELD_VALUE]; otherwise it
    is appended to [req.body]. A file part without a filename is skipped; a
    file part in another field, or a second one in the field, aborts with
    [LIMIT_UNEXPECTED_FILE]; then [fileFilter] is asked; then the part is
    read, and aborts with [LIMIT_FILE_SIZE] once [limits.fileSize] bytes
    have come. The first error ends the request. *)
Fixpoint multer_parts (filesLeft : nat) (parts : list FormPart)
         (file : option FilePart) (body : option BodyValue)
  : result (option FilePart * option BodyValue) :=
  match parts with
  | [] => Ok (file, body)
  | TextField value :: parts' =>
      if (fieldSize <=? Js.utf8Length value)%N
      then Throw (MulterError "LIMIT_FIELD_VALUE" "Field value too long")
      else multer_parts filesLeft parts' file (appendField body value)
  | FileField part :: parts' =>
      if negb (Js.truthy (originalname part)) then multer_parts filesLeft parts' file body
      else if negb (fieldname part =? "file") || (filesLeft =? 0)%nat
      then Throw (MulterError "LIMIT_UNEXPECTED_FILE" "Unexpected field")
      else
        match fileFilter part with
        | Throw e => Throw e
        | Ok false => multer_parts (filesLeft - 1) parts' file body
        | Ok true =>
            if (fileSize <=? byteLength (buffer part))%N
            then Throw (MulterError "LIMIT_FILE_SIZE" "File too large")
            else multer_parts (filesLeft - 1) parts' (Some part) body
        end
  end.

(** A text field short of [limits.fieldSize], and a form whose text
    fields all are. *)
Definition within_limit (value : string) : bool := (Js.utf8Length value <? fieldSize)%N.

Definition fields_within_limit (form : MultipartForm) : bool :=
  forallb within_limit (form_fields form).

(** What multer does with the file parts alone: [multer_parts] when no
    text field aborts. *)
Fixpoint multer_files (filesLeft : nat) (files : list FilePart) (file : option FilePart)
  : result (option FilePart) :=
  match files with
  | [] => Ok file
  | part :: files' =>
      if negb (Js.truthy (originalname part)) then multer_files filesLeft files' file
      else if negb (fieldname part =? "file") || (filesLeft =? 0)%nat
      then Throw (MulterError "LIMIT_UNEXPECTED_FILE" "Unexpected field")
      else
        match fileFilter part with
        | Throw e => Throw e
        | Ok false => multer_files (filesLeft - 1) files' file
        | Ok true =>
            if (fileSize <=? byteLength (buffer part))%N
            then Throw (MulterError "LIMIT_FILE_SIZE" "File too large")
            else multer_files (filesLeft - 1) files' (Some part)
        end
  end.

(** [req.file] and [req.body.category] after the middleware; a request
    that is not multipart passes through with neither. *)
Definition upload_single (req : Request) : result (option FilePart * option BodyValue) :=
  match multipart req with
  | None => Ok (None, None)
  | Some form => multer_parts 1 (form_parts form) None None
  end.

(** [documentData] before validation: [category] is whatever
    [req.body.category || "other"] gave. *)
Record DocumentData := mkDocumentData {
  dd_filename : string;
  dd_originalFilename : string;
  dd_filepath : string;
  dd_filesize : N;
  dd_mimetype : string;
  dd_category : BodyValue;
  dd_userId : string
}.

(** [req.body.category || "other"]: an absent key and the empty string are
    falsy. *)
Definition category_or_other (c : option BodyValue) : BodyValue :=
  match c with
  | None => BString "other"
  | Some (BString s) => if Js.truthy s then BString s else BString "other"
  | Some BComposite => BComposite
  end.

(** [insertDocumentSchema.parse]: every text column takes any string, and
    nothing but a string; [filesize] takes an integer, which a byte count
    is. *)
Definition insertDocumentSchema_parse (d : DocumentData) : result InsertDocument.t :=
  match dd_category d with
  | BString c =>
      Ok (InsertDocument.mk (dd_filename d) (dd_originalFilename d) (dd_filepath d)
                            (dd_filesize d) (Some (dd_mimetype d)) (Some c) (dd_userId d))
  | BComposite => Throw ZodError
  end.

Definition dquote : string := String (ascii_of_N 34) EmptyString.

(** The [Content-Disposition] of a download:
    [attachment; filename=] and, between double quotes, the original
    filename through [encodeURIComponent]. *)
Definition attachment (d : Document.t) : string :=
  "attachment; filename=" ++ dquote
  ++ Js.encodeURIComponent (Document.originalFilename d) ++ dquote.

Section Routes.
Context {DB OS File : Type} `{!IStorage DB} `{!ObjectStorage OS File}.
Local Abbreviation W := (World DB OS).

Definition lift_result {A} (r : result A) : M W A := fun w => (r, w).

(** [objectFile.createReadStream()] piped into [res]; the [error]
    listener answers 500 when no header has gone out. *)
Definition pipe (objectFile : File) (res : Response) : M W Response :=
  fun w =>
    match createReadStream objectFile (os w) with
    | StreamEnd data => (Ok (mkResponse (status res) (headers res) (Stream data true)), w)
    | StreamErrorEarly => (Ok (json_message 500 "Error streaming file" res), w)
    | StreamErrorLate sent => (Ok (mkResponse (status res) (headers res) (Stream sent false)), w)
    end.

(** [app.get("/api/auth/user", ...)] *)
Definition authUser (user : ReqUser) : M W Response :=
  try_catch
    (let userId := claims_sub user in
     let! user := query (getUser userId) in
     ret (json (JsonUser user) res0))
    (fun _ => ret (json_message 500 "Failed to fetch user" res0)).

(** [app.get("/api/documents", ...)] *)
Definition listDocuments (user : ReqUser) : M W Response :=
  try_catch
    (let userId := claims_sub user in
     let! documents := query (getDocumentsByUser userId) in
     ret (json (JsonDocuments documents) res0))
    (fun _ => ret (json_message 500 "Failed to fetch documents" res0)).

(** [app.post("/api/documents/upload", ...)], after the two middlewares. *)
Definition uploadDocument (env : Env) (user : ReqUser)
           (file : option FilePart) (category : option BodyValue) : M W Response :=
  try_catch
    (match file with
     | None => ret (json_message 400 "No file uploaded" res0)
     | Some file =>
         let userId := claims_sub user in
         let category := category_or_other category in
         let objectId := randomUUID env in
         let objectPath := "uploads/" ++ objectId ++ ".pdf" in
         do! store (uploadBuffer (buffer file) objectPath PDF) in
         let! objectFile := fetch (getObjectEntityFile objectPath) in
         do! store (setObjectAclPolicy objectFile (mkAcl userId "private")) in
         let documentData :=
           mkDocumentData (objectId ++ ".pdf")
                          (Js.slice0 255 (originalname file))
                          objectPath
                          (byteLength (buffer file))
                          PDF
                          category
                          userId in
         let! validatedData := lift_result (insertDocumentSchema_parse documentData) in
         let! document := statement (createDocument (gen_random_uuid env) (now env)
                                                    validatedData) in
         ret (json (JsonDocument document) (set_status 201 res0))
     end)
    (fun _ => ret (json_message 500 "Failed to upload document" res0)).

(** The [catch] of the download and preview routes. *)
Definition file_catch (message : string) (error : exn) : M W Response :=
  match error with
  | ObjectNotFoundError => ret (json_message 404 "File not found on server" res0)
  | _ => ret (json_message 500 message res0)
  end.

(** [app.get("/api/documents/:id/download", ...)] *)
Definition downloadDocument (user : ReqUser) (id : string) : M W Response :=
  try_catch
    (let userId := claims_sub user in
     let! document := query (getDocument id) in
     match document with
     | None => ret (json_message 404 "Document not found" res0)
     | Some document =>
         if negb (Document.userId document =? userId)
         then ret (json_message 403 "Access denied" res0)
         else
           let! objectFile := fetch (getObjectEntityFile (Document.filepath document)) in
           let res := setHeader "Content-Type" PDF res0 in
           let res := setHeader "Content-Disposition" (attachment document) res in
           pipe objectFile res
     end)
    (file_catch "Failed to download document").

(** [app.get("/api/documents/:id/preview", ...)] *)
Definition previewDocument (user : ReqUser) (id : string) : M W Response :=
  try_catch
    (let userId := claims_sub user in
     let! document := query (getDocument id) in
     match document with
     | None => ret (json_message 404 "Document not found" res0)
     | Some document =>
         if negb (Document.userId document =? userId)
         then ret (json_message 403 "Access denied" res0)
         else
           let! objectFile := fetch (getObjectEntityFile (Document.filepath document)) in
           let res := setHeader "Content-Type" PDF res0 in
           let res := setHeader "Content-Disposition" "inline" res in
           pipe objectFile res
     end)
    (file_catch "Failed to preview document").

(** [app.delete("/api/documents/:id", ...)] *)
Definition deleteDocumentRoute (user : ReqUser) (id : string) : M W Response :=
  try_catch
    (let userId := claims_sub user in
     let! document := query (getDocument id) in
     match document with
     | None => ret (json_message 404 "Document not found" res0)
     | Some document =>
         if negb (Document.userId document =? userId)
         then ret (json_message 403 "Access denied" res0)
         else
           do! store (deleteObject (Document.filepath document)) in
           let! deleted := statement (deleteDocument id) in
           if deleted : bool
           then ret (json_message 200 "Document deleted successfully" res0)
           else ret (json_message 500 "Failed to delete document" res0)
     end)
    (fun _ => ret (json_message 500 "Failed to delete document" res0)).

(** The error-handling middleware registered after the routes. Only
    multer's errors and the one of [fileFilter] are answered; the text
    compared is that of [fileFilter], which no other error class
    carries. *)
Definition errorMiddleware (err : exn) : Outcome :=
  match err with
  | MulterError code message =>
      if code =? "LIMIT_FILE_SIZE"
      then Respond (json_message 400 "File size must be less than 10MB" res0)
      else Respond (json_message 400 message res0)
  | Error message =>
      if message =? "Only PDF files are allowed"
      then Respond (json_message 400 message res0)
      else Next err
  | _ => Next err
  end.

(** Running a handler to its answer. *)
Definition answer (m : M W Response) (w : W) : Outcome * W :=
  match m w with
  | (Ok res, w') => (Respond res, w')
  | (Throw e, w') => (Next e, w')
  end.

(** A route guarded by [isAuthenticated]. *)
Definition authenticated (env : Env) (req : Request)
           (handler : ReqUser -> W -> Outcome * W) (w : W) : Outcome * W :=
  match isAuthenticated env req with
  | Answered res => (Respond res, w)
  | Continue user => handler user w
  end.

(** The application [registerRoutes] builds: one request, one outcome. *)
Definition handle (env : Env) (req : Request) (w : W) : Outcome * W :=
  match route req with
  | PostSignup => answer (signup env req) w
  | PostLogin => answer (login env req) w
  | GetLogout => answer logout w
  | GetAuthUser => authenticated env req (fun user => answer (authUser user)) w
  | GetDocuments => authenticated env req (fun user => answer (listDocuments user)) w
  | PostDocumentsUpload =>
      authenticated env req
        (fun user w =>
           match upload_single req with
           | Throw err => (errorMiddleware err, w)
           | Ok (file, category) => answer (uploadDocument env user file category) w
           end) w
  | GetDocumentDownload =>
      authenticated env req (fun user => answer (downloadDocument user (params_id req))) w
  | GetDocumentPreview =>
      authenticated env req (fun user => answer (previewDocument user (params_id req))) w
  | DeleteDocumentById =>
      authenticated env req (fun user => answer (deleteDocumentRoute user (params_id req))) w
  end.

End Routes.

(** ** [UploadZone.tsx]: the check before a file is selected *)

Record ClientFile := mkClientFile {
  file_name : string;
  file_type : string;
  file_size : N
}.

Definition MAX_FILE_SIZE : N := 10 * 1024 * 1024.
Definition ACCEPTED_FILE_TYPE : string := "application/pdf".

Definition validateFile (file : ClientFile) : option string :=
  if negb (file_type file =? ACCEPTED_FILE_TYPE)
  then Some "Only PDF files are allowed"
  else if (MAX_FILE_SIZE <? file_size file)%N
  then Some "File size must be less than 10MB"
  else None.

(** ** The database *)

Record Database := mkDatabase {
  users : list User.t;
  documents : list Document.t
}.

Definition has_user (id : string) (d : Database) : bool :=
  existsb (fun u => User.id u =? id) (users d).

Definition has_document (id : string) (d : Database) : bool :=
  existsb (fun r => Document.id r =? id) (documents d).

(** Two nullable emails collide when both are set and equal. *)
Definition same_email (a b : option string) : bool :=
  match a, b with
  | Some x, Some y => x =? y
  | _, _ => false
  end.

Definition unique_violation : exn :=
  Error "duplicate key value violates unique constraint".

(** Modelled from the spec: the [storage] module is not among the sources.
    [getUser] is the row of the [users] table with this primary key. *)
Definition db_getUser (id : string) (d : Database) : result (option User.t) :=
  Ok (List.find (fun u => User.id u =? id) (users d)).

(** Modelled from the spec: the [storage] module is not among the sources.
    [getUserByEmail] is the row of the [users] table with this email. *)
Definition db_getUserByEmail (email : string) (d : Database) : result (option User.t) :=
  Ok (List.find (fun u => same_email (User.email u) (Some email)) (users d)).

(** Modelled from the spec: the [storage] module is not among the sources.
    [upsertUser] inserts the row, with the defaults of the schema for the
    columns left out, or updates the row that has its primary key; the
    unique constraint on [email] makes the statement throw. *)
Definition db_upsertUser (uuid : string) (now : N) (u : UpsertUser.t) (d : Database)
  : result (User.t * Database) :=
  let id := default uuid (UpsertUser.id u) in
  if existsb (fun r => negb (User.id r =? id) && same_email (User.email r) (UpsertUser.email u))
             (users d)
  then Throw unique_violation
  else
    match List.find (fun r => User.id r =? id) (users d) with
    | Some old =>
        let row := User.mk id (UpsertUser.email u) (UpsertUser.firstName u)
                           (UpsertUser.lastName u) (UpsertUser.profileImageUrl u)
                           (UpsertUser.passwordHash u) (User.createdAt old) (Some now) in
        Ok (row, mkDatabase (List.map (fun r => if User.id r =? id then row else r) (users d))
                            (documents d))
    | None =>
        let row := User.mk id (UpsertUser.email u) (UpsertUser.firstName u)
                           (UpsertUser.lastName u) (UpsertUser.profileImageUrl u)
                           (UpsertUser.passwordHash u) (Some now) (Some now) in
        Ok (row, mkDatabase (users d ++ [row]) (documents d))
    end.

(** The row of the [documents] table with this primary key, if any. *)
Definition document_with_id (id : string) (d : Database) : option Document.t :=
  List.find (fun r => Document.id r =? id) (documents d).

(** Modelled from the spec: the [storage] module is not among the sources.
    [getDocument] is the row of the [documents] table with this primary
    key. *)
Definition db_getDocument (id : string) (d : Database) : result (option Document.t) :=
  Ok (document_with_id id d).

(** Modelled from the spec: the [storage] module is not among the sources.
    [getDocumentsByUser] is the rows of the [documents] table owned by this
    user. *)
Definition db_getDocumentsByUser (userId : string) (d : Database) : result (list Document.t) :=
  Ok (List.filter (fun r => Document.userId r =? userId) (documents d)).

(** Modelled from the spec: the [storage] module is not among the sources.
    [createDocument] inserts one row, with the defaults of the schema for
    [id], [createdAt] and the columns left out; a primary key already in
    the table makes the statement throw. *)
Definition db_createDocument (uuid : string) (now : N) (i : InsertDocument.t) (d : Database)
  : result (Document.t * Database) :=
  if has_document uuid d
  then Throw unique_violation
  else
    let row := Document.mk uuid (InsertDocument.filename i)
                           (InsertDocument.originalFilename i)
                           (InsertDocument.filepath i) (InsertDocument.filesize i)
                           (default "application/pdf" (InsertDocument.mimetype i))
                           (default "other" (InsertDocument.category i))
                           (InsertDocument.userId i) now in
    Ok (row, mkDatabase (users d) (documents d ++ [row])).

(** Modelled from the spec: the [storage] module is not among the sources.
    [deleteDocument] removes the rows with this primary key and tells
    whether there was one. *)
Definition db_deleteDocument (id : string) (d : Database) : result (bool * Database) :=
  let kept := List.filter (fun r => negb (Document.id r =? id)) (documents d) in
  Ok (has_document id d, mkDatabase (users d) kept).

#[export] Instance DatabaseStorage : IStorage Database := {
  getUser := db_getUser;
  getUserByEmail := db_getUserByEmail;
  upsertUser := db_upsertUser;
  getDocument := db_getDocument;
  getDocumentsByUser := db_getDocumentsByUser;
  createDocument := db_createDocument;
  deleteDocument := db_deleteDocument
}.

(** ** The object store *)

Record StoredObject := mkStoredObject {
  data : Buffer;
  contentType : string;
  acl : option ObjectAclPolicy
}.

(** A bucket: its objects by name, and whether the service answers. *)
Record Bucket := mkBucket {
  online : bool;
  objects : gmap string StoredObject
}.

Definition unavailable : exn := Error "object storage unavailable".

(** Modelled from the spec: the [objectStorage] module is not among the
    sources. [uploadBuffer] writes the object under the path, over an
    earlier one; it throws when the service does not answer. *)
Definition os_uploadBuffer (b : Buffer) (path type : string) (o : Bucket) : result Bucket :=
  if online o
  then Ok (mkBucket true (<[path := mkStoredObject b type None]> (objects o)))
  else Throw unavailable.

(** Modelled from the spec: the [objectStorage] module is not among the
    sources. [getObjectEntityFile] is a handle on the object under the
    path (here its name), and throws [ObjectNotFoundError] when there is
    none. *)
Definition os_getObjectEntityFile (path : string) (o : Bucket) : result string :=
  if online o
  then match objects o !! path with
       | Some _ => Ok path
       | None => Throw ObjectNotFoundError
       end
  else Throw unavailable.

(** Modelled from the spec: the [objectAcl] module is not among the
    sources. [setObjectAclPolicy] records the policy on the object. *)
Definition os_setObjectAclPolicy (file : string) (p : ObjectAclPolicy) (o : Bucket)
  : result Bucket :=
  if online o
  then match objects o !! file with
       | Some obj =>
           Ok (mkBucket true
                 (<[file := mkStoredObject (data obj) (contentType obj) (Some p)]> (objects o)))
       | None => Throw ObjectNotFoundError
       end
  else Throw unavailable.

(** Modelled from the spec: the [objectStorage] module is not among the
    sources. [deleteObject] removes the object under the path, and throws
    [ObjectNotFoundError] when there is none. *)
Definition os_deleteObject (path : string) (o : Bucket) : result Bucket :=
  if online o
  then match objects o !! path with
       | Some _ => Ok (mkBucket true (delete path (objects o)))
       | None => Throw ObjectNotFoundError
       end
  else Throw unavailable.

(** Modelled from the spec: the [objectStorage] module is not among the
    sources. The stream of a handle gives the bytes stored under its
    name. *)
Definition os_createReadStream (file : string) (o : Bucket) : StreamResult :=
  if online o
  then match objects o !! file with
       | Some obj => StreamEnd (data obj)
       | None => StreamErrorEarly
       end
  else StreamErrorEarly.

#[export] Instance BucketStorage : ObjectStorage Bucket string := {
  uploadBuffer := os_uploadBuffer;
  getObjectEntityFile := os_getObjectEntityFile;
  setObjectAclPolicy := os_setObjectAclPolicy;
  deleteObject := os_deleteObject;
  createReadStream := os_createReadStream
}.

(** ** The portal: the routes over the database and the bucket *)

Abbreviation Portal := (World Database Bucket).

Definition portal0 : Portal :=
  mkWorld (mkDatabase [] []) (mkBucket true ∅).

Definition serve (env : Env) (req : Request) (w : Portal) : Outcome * Portal :=
  handle env req w.

(** The states the portal reaches from [portal0], whatever the requests
    are and whatever tokens they carry. *)
Inductive reachable : Portal -> Prop :=
| reachable_init : reachable portal0
| reachable_step env req w :
    reachable w -> reachable (snd (serve env req w)).

(** The user a request is authenticated as: [req.user.claims.sub] when
    [isAuthenticated] lets the request through. *)
Definition requester (env : Env) (req : Request) : option string :=
  match isAuthenticated env req with
  | Continue user => Some (claims_sub user)
  | Answered _ => None
  end.

(** The status of an outcome that is an answer. *)
Definition status_of (o : Outcome) : option Z :=
  match o with
  | Respond r => Some (status r)
  | Next _ => None
  end.

Definition payload_of (o : Outcome) : option Payload :=
  match o with
  | Respond r => Some (payload r)
  | Next _ => None
  end.




(** ** A small run, for the examples

    One user signs up, uploads a PDF and another user signs up. *)

Definition no_credentials : Credentials := mkCredentials None None None None.

Definition ex_env1 : Env := mkEnv 100 "obj-1" "user-1" None.
Definition ex_env2 : Env := mkEnv 200 "obj-2" "doc-2" None.
Definition ex_env3 : Env := mkEnv 300 "obj-3" "user-3" None.
Definition ex_env4 : Env := mkEnv 400 "obj-4" "doc-4" None.

Definition ex_signup (email password : string) : Request :=
  mkRequest PostSignup None EmptyString
            (mkCredentials (Some email) (Some password) None None) None.

Definition ex_pdf : FilePart :=
  mkFilePart "file" "lab results.pdf" "application/pdf" (mkBuffer "bytes-of-lab-results" 2048).

Definition ex_big_pdf : FilePart :=
  mkFilePart "file" "scan.pdf" "application/pdf" (mkBuffer "bytes-of-scan" (fileSize + 1)).

Definition ex_big_text : FilePart :=
  mkFilePart "file" "notes.txt" "text/plain" (mkBuffer "bytes-of-notes" (fileSize + 1)).

Definition ex_text : FilePart :=
  mkFilePart "file" "notes.txt" "text/plain" (mkBuffer "bytes-of-notes" 12).


Definition ex_big_pdf_other_field : FilePart :=
  mkFilePart "document" "scan.pdf" "application/pdf" (mkBuffer "bytes-of-scan" (fileSize + 1)).

(** A PDF of exactly [limits.fileSize] bytes, and a category of exactly
    [limits.fieldSize] bytes. *)
Definition ex_limit_pdf : FilePart :=
  mkFilePart "file" "scan.pdf" "application/pdf" (mkBuffer "bytes-of-scan" fileSize).


(** Two passwords of 73 bytes with the same first 72. *)
Definition ex_password_1 : string := Js.repeat "a" 72 ++ "1".
Definition ex_password_2 : string := Js.repeat "a" 72 ++ "2".


(** An upload as the page sends it: the file, then the category fields. *)
Definition ex_upload (auth : option string) (category : list string) (file : FilePart)
  : Request :=
  mkRequest PostDocumentsUpload auth EmptyString no_credentials
            (Some (mkForm (FileField file :: List.map TextField category))).

Definition ex_get (r : Route) (auth : option string) (id : string) : Request :=
  mkRequest r auth id no_credentials None.

(** The [Authorization] header a client sends with a token. *)
Definition bearer (token : string) : option string := Some ("Bearer " ++ token).

(** The tokens the two signups hand out, and a token signed elsewhere
    under the same secret for a user id that has no row. *)
Definition ex_alice : option string :=
  bearer (generateToken ex_env1 "user-1" "alice@example.org").
Definition ex_bob : option string :=
  bearer (generateToken ex_env3 "user-3" "bob@example.org").
Definition ex_ghost : option string :=
  bearer (Jwt.sign (mkToken "ghost" "ghost@example.org" 0 1000000)
                   "your-secret-key-change-in-production").

Definition ex_w1 : Portal := snd (serve ex_env1 (ex_signup "alice@example.org" "pw-a") portal0).
Definition ex_w2 : Portal :=
  snd (serve ex_env2 (ex_upload ex_alice ["referral"] ex_pdf) ex_w1).
Definition ex_w3 : Portal := snd (serve ex_env3 (ex_signup "bob@example.org" "pw-b") ex_w2).

(** The state after one upload into the empty portal with the token
    signed elsewhere. *)
Definition ex_w_ghost : Portal := snd (serve ex_env2 (ex_upload ex_ghost [] ex_pdf) portal0).

(** [ex_w3] with the object store not answering. *)
Definition ex_w3_offline : Portal :=
  mkWorld (db ex_w3) (mkBucket false (objects (os ex_w3))).

(** The state after a sequence of requests, each with what its run
    supplies. *)
Fixpoint run (reqs : list (Env * Request)) (w : Portal) : Portal :=
  match reqs with
  | [] => w
  | (env, req) :: reqs' => run reqs' (snd (serve env req w))
  end.

(** The row an upload inserts, and the object it leaves in the bucket. *)
Definition uploaded_row (env : Env) (userId : string) (file : FilePart) (c : string)
  : Document.t :=
  Document.mk (gen_random_uuid env) (randomUUID env ++ ".pdf")
              (Js.slice0 255 (originalname file))
              ("uploads/" ++ randomUUID env ++ ".pdf")
              (byteLength (buffer file)) PDF c userId (now env).

Definition uploaded_object (userId : string) (file : FilePart) : StoredObject :=
  mkStoredObject (buffer file) PDF (Some (mkAcl userId "private")).

(** Referential integrity, as [existsb] over the [users] table. *)
Definition owner_exists (d : Database) : Prop :=
  forall doc, In doc (documents d) -> has_user (Document.userId doc) d = true.

(** The token an answer hands out, if it hands one out. *)
Definition token_of (o : Outcome) : list string :=
  match payload_of o with
  | Some (JsonSession token _) => [token]
  | _ => []
  end.

(** The runs in which a request gets through [isAuthenticated] only with a
    token the server handed out earlier in the run; [tokens] are the
    tokens handed out so far. *)
Inductive issued_run : list string -> Portal -> Prop :=
| issued_init : issued_run [] portal0
| issued_step env req tokens w :
    issued_run tokens w ->
    (requester env req <> None ->
     exists token, In token tokens /\ authorization req = bearer token) ->
    issued_run (tokens ++ token_of (fst (serve env req w))) (snd (serve env req w)).

(** Every token handed out was signed for a user of the table. *)
Definition tokens_name_users (tokens : list string) (d : Database) : Prop :=
  forall token, In token tokens ->
    exists payload secret,
      token = Jwt.sign payload secret /\ has_user (tok_userId payload) d = true.

(** The three ways a request leaves the [documents] table. *)
Definition documents_effect (env : Env) (req : Request) (w : Portal) : Prop :=
  let out := fst (serve env req w) in
  let w' := snd (serve env req w) in
  documents (db w') = documents (db w)
  \/ (route req = PostDocumentsUpload /\ status_of out = Some 201%Z /\
      exists d, documents (db w') = (documents (db w) ++ [d])%list /\
                has_document (Document.id d) (db w) = false /\
                requester env req = Some (Document.userId d))
  \/ (route req = DeleteDocumentById /\ status_of out = Some 200%Z /\
      documents (db w')
      = List.filter (fun x => negb (Document.id x =? params_id req)) (documents (db w))).


(** ** More of the application *)

(** [isOptionallyAuthenticated]: the middleware always calls [next()];
    what is returned is [req.user] after it, [None] when it was left
    unset. *)
Definition isOptionallyAuthenticated (env : Env) (req : Request) : option ReqUser :=
  match authorization req with
  | None => None
  | Some authHeader =>
      if Js.truthy authHeader && Js.startsWith authHeader "Bearer "
      then
        let token := Js.substring_from 7 authHeader in
        match verifyToken env token with
        | Some decoded =>
            Some (mkReqUser (tok_userId decoded) (tok_email decoded) (tok_userId decoded))
        | None => None
        end
      else None
  end.

(** The routes registered with [isAuthenticated]. *)
Definition guarded (r : Route) : bool :=
  match r with
  | PostSignup | PostLogin | GetLogout => false
  | _ => true
  end.

(** The routes registered with [app.get]. *)
Definition is_get (r : Route) : bool :=
  match r with
  | GetLogout | GetAuthUser | GetDocuments | GetDocumentDownload | GetDocumentPreview => true
  | _ => false
  end.

(** A database whose write statements fail (a read-only replica, a lost
    connection): reads are those of [DatabaseStorage]. *)
Record ReadOnlyDatabase := mkReadOnly { replica : Database }.

Definition read_only_error : exn := Error "cannot execute in a read-only transaction".

#[export] Instance ReadOnlyStorage : IStorage ReadOnlyDatabase := {
  getUser id d := db_getUser id (replica d);
  getUserByEmail email d := db_getUserByEmail email (replica d);
  upsertUser _ _ _ _ := Throw read_only_error;
  getDocument id d := db_getDocument id (replica d);
  getDocumentsByUser userId d := db_getDocumentsByUser userId (replica d);
  createDocument _ _ _ _ := Throw read_only_error;
  deleteDocument _ _ := Throw read_only_error
}.

(** [ex_w3] over a database that has become read-only. *)
Definition ex_w3_read_only : World ReadOnlyDatabase Bucket :=
  mkWorld (mkReadOnly (db ex_w3)) (os ex_w3).

(** More of the small run. *)
Definition ex_alice_user : ReqUser := mkReqUser "user-1" "alice@example.org" "user-1".

Definition ex_login (email password : string) : Request :=
  mkRequest PostLogin None EmptyString
            (mkCredentials (Some email) (Some password) None None) None.

(** A run one second before the token signed in [ex_env4] expires. *)
Definition ex_env_late : Env := mkEnv (400 + 604799) "obj-5" "doc-5" None.

(** ** [Home]: the documents shown and the name in the header *)

(** [filteredDocuments]: the rows of the listing that match the search box
    and the category select. *)
Definition filteredDocuments (documents : list Document.t)
           (searchQuery categoryFilter : string) : list Document.t :=
  List.filter
    (fun doc =>
       let matchesSearch :=
         (searchQuery =? EmptyString)
         || Js.includes (Js.toLowerCase (Document.originalFilename doc))
                        (Js.toLowerCase searchQuery) in
       let matchesCategory :=
         (categoryFilter =? "all") || (Document.category doc =? categoryFilter) in
       matchesSearch && matchesCategory)
    documents.

(** A nullable text column is truthy when it holds a string that is not
    empty. *)
Definition column_truthy (c : option string) : bool :=
  match c with
  | Some s => Js.truthy s
  | None => false
  end.

(** [getUserDisplayName]; [None] is a [user] that is not loaded. *)
Definition getUserDisplayName (user : option User.t) : string :=
  match user with
  | None => "User"
  | Some u =>
      if column_truthy (User.firstName u) && column_truthy (User.lastName u)
      then default EmptyString (User.firstName u) ++ " "
           ++ default EmptyString (User.lastName u)
      else if column_truthy (User.email u)
           then default EmptyString (User.email u)
           else "User"
  end.

(** The file the browser holds for a part of the upload form. *)
Definition browser_file (part : FilePart) : ClientFile :=
  mkClientFile (originalname part) (mimetype part) (byteLength (buffer part)).

(** What the upload route leaves in a row of [documents]. *)
Definition stored_as_uploaded (d : Document.t) : Prop :=
  Document.mimetype d = PDF /\
  (Document.filesize d < fileSize)%N /\
  (exists objectId, Document.filename d = objectId ++ ".pdf") /\
  Document.filepath d = "uploads/" ++ Document.filename d /\
  String.length (Document.originalFilename d) <= 255 /\
  Document.originalFilename d <> EmptyString /\
  Document.category d <> EmptyString.

(** More of the small run: a form with two files, a PDF whose name has no
    extension, the row of the first user, and a later run. *)
Definition ex_two_files : Request :=
  mkRequest PostDocumentsUpload ex_alice EmptyString no_credentials
            (Some (mkForm [FileField ex_pdf; FileField ex_pdf])).

Definition ex_no_extension : FilePart :=
  mkFilePart "file" "lab results" "application/pdf" (mkBuffer "bytes-of-lab-results" 2048).

Definition ex_env5 : Env := mkEnv 500 "obj-5" "doc-5" None.

Definition ex_alice_row : User.t :=
  User.mk "user-1" (Some "alice@example.org") (Some EmptyString) (Some EmptyString) None
          (Some (bcrypt_hash "pw-a")) (Some 100%N) (Some 100%N).

(** * Properties *)

Ltac unfold_routes :=
  unfold signup, login, logout, authUser, listDocuments, uploadDocument, downloadDocument,
    previewDocument, deleteDocumentRoute, file_catch, pipe, generateToken in *.

Ltac unfold_m :=
  unfold bind, try_catch, ret, throw, query, statement, fetch, store, lift_result in *.

Ltac break_match :=
  match goal with
  | H : context [match ?x with _ => _ end] |- _ => destruct x eqn:?
  | |- context [match ?x with _ => _ end] => destruct x eqn:?
  end.

(** Runs a handler symbolically: one case for each way its calls return. *)
Ltac run_handler :=
  unfold_routes; unfold_m; repeat (break_match; simplify_eq/=); simplify_eq/=.


(** ** The platform functions and the small run, evaluated *)

Example extname_plain : Path.extname "lab results.pdf" = ".pdf".
Proof. reflexivity. Qed.

Example extname_upper : Js.toLowerCase (Path.extname "SCAN.PDF") = ".pdf".
Proof. reflexivity. Qed.

Example extname_dotfile : Path.extname ".pdf" = EmptyString.
Proof. reflexivity. Qed.

Example extname_last_dot : Path.extname "a.tar.gz" = ".gz".
Proof. reflexivity. Qed.

Example extname_dot_dot : Path.extname ".." = EmptyString.
Proof. reflexivity. Qed.

Example extname_trailing_slash : Path.extname "a.pdf/" = ".pdf".
Proof. reflexivity. Qed.

Example extname_directory : Path.extname "x.d/readme" = EmptyString.
Proof. reflexivity. Qed.

Example extname_ending_dot : Path.extname "a." = ".".
Proof. reflexivity. Qed.

Example encode_space : Js.encodeURIComponent "lab results(1).pdf" = "lab%20results(1).pdf".
Proof. reflexivity. Qed.

Example fileFilter_pdf : fileFilter ex_pdf = Ok true.
Proof. reflexivity. Qed.

Example fileFilter_text : fileFilter ex_text = Throw (Error "Only PDF files are allowed").
Proof. reflexivity. Qed.

(** A PDF type on a name without the extension is refused by the server,
    and let through by the upload form, which looks at the type only. *)
Example fileFilter_wrong_extension :
  fileFilter (mkFilePart "file" "report.txt" "application/pdf" (mkBuffer "b" 10))
  = Throw (Error "Only PDF files are allowed")
  /\ validateFile (mkClientFile "report.txt" "application/pdf" 10) = None.
Proof. split; reflexivity. Qed.

Example run_users : List.map User.id (users (db ex_w3)) = ["user-1"; "user-3"].
Proof. vm_compute. reflexivity. Qed.

Example run_documents :
  documents (db ex_w3)
  = [Document.mk "doc-2" "obj-2.pdf" "lab results.pdf" "uploads/obj-2.pdf" 2048
                 "application/pdf" "referral" "user-1" 200].
Proof. vm_compute. reflexivity. Qed.

Example run_object :
  objects (os ex_w3) !! "uploads/obj-2.pdf"
  = Some (mkStoredObject (buffer ex_pdf) "application/pdf" (Some (mkAcl "user-1" "private"))).
Proof. vm_compute. reflexivity. Qed.

Example run_download :
  fst (serve ex_env4 (ex_get GetDocumentDownload ex_alice "doc-2") ex_w3)
  = Respond (mkResponse 200
               [("Content-Disposition",
                 "attachment; filename=" ++ dquote ++ "lab%20results.pdf" ++ dquote);
                ("Content-Type", "application/pdf")]
               (Stream (buffer ex_pdf) true)).
Proof. vm_compute. reflexivity. Qed.

Example run_expired_token :
  fst (serve (mkEnv (100 + JWT_EXPIRY) "o" "d" None)
             (ex_get GetDocuments ex_alice EmptyString) ex_w3)
  = Respond (json_message 401 "Invalid or expired token" res0).
Proof. vm_compute. reflexivity. Qed.

Example run_second_file :
  fst (serve ex_env4
         (mkRequest PostDocumentsUpload ex_alice EmptyString no_credentials
                    (Some (mkForm [FileField ex_pdf; FileField ex_pdf]))) ex_w3)
  = Respond (json_message 400 "Unexpected field" res0).
Proof. vm_compute. reflexivity. Qed.

(** A token signed elsewhere under the secret of the server gets through
    [isAuthenticated], for a user id that has no row; under another secret
    it does not. *)
Example run_foreign_token :
  isAuthenticated ex_env4 (ex_get GetDocuments ex_ghost EmptyString)
  = Continue (mkReqUser "ghost" "ghost@example.org" "ghost")
  /\ isAuthenticated (mkEnv 400 "obj-4" "doc-4" (Some "another secret"))
                     (ex_get GetDocuments ex_ghost EmptyString)
     = Answered (json_message 401 "Invalid or expired token" res0).
Proof. split; vm_compute; reflexivity. Qed.

(** A token verifies in its last second, and no longer at the time it
    expires. *)
Example run_token_last_second :
  verifyToken ex_env_late (generateToken ex_env4 "user-1" "alice@example.org")
  = Some (mkToken "user-1" "alice@example.org" 400 (400 + 604800))
  /\ verifyToken (mkEnv (400 + 604800) "o" "d" None)
                 (generateToken ex_env4 "user-1" "alice@example.org")
     = None.
Proof. split; vm_compute; reflexivity. Qed.

(** bcrypt does not tell two passwords apart that differ after the 72nd
    byte. *)
Example run_long_passwords :
  bcrypt_compare ex_password_2 (bcrypt_hash ex_password_1) = true
  /\ bcrypt_compare "pw-b" (bcrypt_hash "pw-a") = false.
Proof. split; vm_compute; reflexivity. Qed.

(** A PDF of exactly [limits.fileSize] bytes is refused; one byte less
    passes. *)
Example run_file_at_limit :
  upload_single
    (ex_upload ex_alice []
       (mkFilePart "file" "scan.pdf" "application/pdf" (mkBuffer "bytes-of-scan" fileSize)))
  = Throw (MulterError "LIMIT_FILE_SIZE" "File too large")
  /\ upload_single
       (ex_upload ex_alice []
          (mkFilePart "file" "scan.pdf" "application/pdf"
                      (mkBuffer "bytes-of-scan" (fileSize - 1))))
     = Ok (Some (mkFilePart "file" "scan.pdf" "application/pdf"
                            (mkBuffer "bytes-of-scan" (fileSize - 1))), None).
Proof. split; vm_compute; reflexivity. Qed.

(** ** The extension of a plain name that ends in [.pdf] *)

Lemma substring_skip base n tail :
  String.substring (String.length base) n (base ++ tail) = String.substring 0 n tail.
Proof. induction base as [| c base IH]; [reflexivity | exact IH]. Qed.

(** One turn of the loop on a state whose [end] is set, at a character
    that is no slash. *)
Lemma ext_step_open i c sd sp e ms pds :
  e <> (-1)%Z -> Path.is_slash c = false ->
  Path.ext_step i c (Path.mkExt sd sp e ms pds false)
  = if Path.is_dot c
    then if (sd =? -1)%Z then Path.mkExt i sp e ms pds false
         else if negb (pds =? 1)%Z then Path.mkExt sd sp e ms 1 false
              else Path.mkExt sd sp e ms pds false
    else if negb (sd =? -1)%Z then Path.mkExt sd sp e ms (-1) false
         else Path.mkExt sd sp e ms pds false.
Proof.
  intros He Hslash. unfold Path.ext_step.
  cbn [Path.ext_done Path.startDot Path.ext_end Path.matchedSlash Path.preDotState
       Path.startPart].
  rewrite Hslash. apply Z.eqb_neq in He. rewrite He. reflexivity.
Qed.

(** The first turn of the loop, at a character that is no slash and no
    dot: it sets [end]. *)
Lemma ext_step_first i c :
  Path.is_slash c = false -> Path.is_dot c = false ->
  Path.ext_step i c Path.ext_init = Path.mkExt (-1) 0 (i + 1) false 0 false.
Proof.
  intros Hslash Hdot. unfold Path.ext_step, Path.ext_init.
  cbn [Path.ext_done Path.startDot Path.ext_end Path.matchedSlash Path.preDotState
       Path.startPart].
  rewrite Hslash. cbn [Z.eqb Pos.eqb Path.startDot Path.ext_end Path.matchedSlash
                       Path.preDotState Path.startPart negb].
  rewrite Hdot. reflexivity.
Qed.

(** Before any dot was seen, a plain character changes nothing. *)
Lemma ext_step_before_dot i c sp e ms pds :
  e <> (-1)%Z -> Path.is_slash c = false -> Path.is_dot c = false ->
  Path.ext_step i c (Path.mkExt (-1) sp e ms pds false)
  = Path.mkExt (-1) sp e ms pds false.
Proof. intros He Hslash Hdot. rewrite ext_step_open, Hdot by assumption. reflexivity. Qed.

(** The first dot seen is where the extension starts. *)
Lemma ext_step_dot i c sp e ms pds :
  e <> (-1)%Z -> Path.is_slash c = false -> Path.is_dot c = true ->
  Path.ext_step i c (Path.mkExt (-1) sp e ms pds false)
  = Path.mkExt i sp e ms pds false.
Proof. intros He Hslash Hdot. rewrite ext_step_open, Hdot by assumption. reflexivity. Qed.

(** A plain character before the dot makes the extension a real one. *)
Lemma ext_step_after_dot i c sd sp e ms pds :
  e <> (-1)%Z -> sd <> (-1)%Z -> Path.is_slash c = false -> Path.is_dot c = false ->
  Path.ext_step i c (Path.mkExt sd sp e ms pds false)
  = Path.mkExt sd sp e ms (-1) false.
Proof.
  intros He Hsd Hslash Hdot. rewrite ext_step_open, Hdot by assumption.
  apply Z.eqb_neq in Hsd. rewrite Hsd. reflexivity.
Qed.

(** The variables of the loop of [extname] once it has walked back over
    [.pdf] and a plain name before it. *)
Lemma ext_loop_pdf base : forall i,
  (0 <= i)%Z -> Path.plain base = true ->
  Path.ext_loop i (base ++ ".pdf") Path.ext_init
  = Path.mkExt (i + Z.of_nat (String.length base)) 0
               (i + Z.of_nat (String.length base) + 4) false
               (if (String.length base =? 0)%nat then 0%Z else (-1)%Z) false.
Proof.
  induction base as [| c base IH]; intros i Hi Hplain.
  - change (EmptyString ++ ".pdf") with ".pdf".
    cbn [Path.ext_loop String.length Nat.eqb Z.of_nat].
    rewrite ext_step_first by reflexivity.
    rewrite ext_step_before_dot by (reflexivity || lia).
    rewrite ext_step_before_dot by (reflexivity || lia).
    rewrite ext_step_dot by (reflexivity || lia).
    f_equal; lia.
  - simpl in Hplain. apply andb_prop in Hplain as [Hc Hplain].
    apply andb_prop in Hc as [Hdot Hslash].
    apply negb_true_iff in Hdot, Hslash.
    change (String c base ++ ".pdf") with (String c (base ++ ".pdf")).
    cbn [Path.ext_loop]. rewrite (IH (i + 1)%Z) by (lia || assumption).
    rewrite ext_step_after_dot by (lia || assumption).
    cbn [String.length Nat.eqb]. f_equal; lia.
Qed.

Lemma extname_pdf base :
  base <> EmptyString -> Path.plain base = true -> Path.extname (base ++ ".pdf") = ".pdf".
Proof.
  intros Hne Hplain. unfold Path.extname.
  rewrite (ext_loop_pdf base 0%Z) by (lia || assumption).
  cbn [Path.startDot Path.ext_end Path.preDotState Path.startPart].
  destruct base as [| c base]; [contradiction |].
  cbn [String.length Nat.eqb].
  replace (0 + Z.of_nat (S (String.length base)) =? -1)%Z with false
    by (symmetry; apply Z.eqb_neq; lia).
  replace (0 + Z.of_nat (S (String.length base)) + 4 =? -1)%Z with false
    by (symmetry; apply Z.eqb_neq; lia).
  cbn [orb andb Z.eqb].
  replace (Z.to_nat (0 + Z.of_nat (S (String.length base))))
    with (String.length (String c base)) by (cbn [String.length]; lia).
  replace (Z.to_nat (0 + Z.of_nat (S (String.length base)) + 4 -
                     (0 + Z.of_nat (S (String.length base))))) with 4%nat by lia.
  apply substring_skip.
Qed.

(** A PDF whose name is a plain name followed by [.pdf] passes
    [fileFilter]. *)
Lemma fileFilter_plain_pdf field base buf :
  base <> EmptyString -> Path.plain base = true ->
  fileFilter (mkFilePart field (base ++ ".pdf") "application/pdf" buf) = Ok true.
Proof.
  intros Hne Hplain. unfold fileFilter. simpl originalname.
  rewrite (extname_pdf base Hne Hplain). reflexivity.
Qed.

(** ** The filename in the header of a download can be read back *)

Lemma decode_encode_char c r :
  Js.decodeURIComponent (Js.encode_char c ++ r)
  = option_map (String c) (Js.decodeURIComponent r).
Proof. destruct c as [[] [] [] [] [] [] [] []]; reflexivity. Qed.

Lemma decode_encodeURIComponent s :
  Js.decodeURIComponent (Js.encodeURIComponent s) = Some s.
Proof.
  induction s as [| c s IH]; [reflexivity |].
  simpl Js.encodeURIComponent. rewrite decode_encode_char, IH. reflexivity.
Qed.

(** ** Tokens: what is signed verifies, under the secret it was signed with *)

Lemma read_write_string s rest :
  Jwt.read_string (Jwt.write_string s ++ rest) = Some (s, rest).
Proof.
  induction s as [| c s IH]; [reflexivity |].
  change (Jwt.write_string (String c s) ++ rest)
    with (String "+" (String c (Jwt.write_string s ++ rest))).
  cbn [Jwt.read_string]. rewrite IH. reflexivity.
Qed.

Lemma read_write_positive p rest :
  Jwt.read_positive (Jwt.write_positive p ++ rest) = Some (p, rest).
Proof.
  induction p as [p IH | p IH |]; [| | reflexivity].
  - change (Jwt.write_positive p~1 ++ rest)
      with (String "1" (Jwt.write_positive p ++ rest)).
    cbn [Jwt.read_positive]. rewrite IH. reflexivity.
  - change (Jwt.write_positive p~0 ++ rest)
      with (String "0" (Jwt.write_positive p ++ rest)).
    cbn [Jwt.read_positive]. rewrite IH. reflexivity.
Qed.

Lemma read_write_N n rest : Jwt.read_N (Jwt.write_N n ++ rest) = Some (n, rest).
Proof.
  destruct n as [| p]; [reflexivity |].
  change (Jwt.write_N (N.pos p) ++ rest) with (String "p" (Jwt.write_positive p ++ rest)).
  cbn [Jwt.read_N]. change (Js.code "p" =? 122)%N with false.
  change (Js.code "p" =? 112)%N with true. cbn iota.
  rewrite read_write_positive. reflexivity.
Qed.

Lemma substring_all s : String.substring 0 (String.length s) s = s.
Proof. induction s as [| c s IH]; [reflexivity |]. simpl. by rewrite IH. Qed.

Lemma bearer_token token :
  Js.truthy ("Bearer " ++ token) = true /\
  Js.startsWith ("Bearer " ++ token) "Bearer " = true /\
  Js.substring_from 7 ("Bearer " ++ token) = token.
Proof.
  split; [reflexivity |]. split; [destruct token; reflexivity |]. unfold Js.substring_from.
  change ("Bearer " ++ token)
    with (String "B" (String "e" (String "a" (String "r" (String "e" (String "r"
            (String " " token))))))).
  cbn [String.length Nat.sub String.substring]. rewrite ?Nat.sub_0_r. apply substring_all.
Qed.

(** Who gets through [isAuthenticated] with a bearer token holds a token
    that verifies, for the user the request runs as. *)
Lemma isAuthenticated_bearer env req user token :
  isAuthenticated env req = Continue user ->
  authorization req = bearer token ->
  exists claims, verifyToken env token = Some claims /\ tok_userId claims = claims_sub user.
Proof.
  unfold isAuthenticated, bearer. intros Hauth Hheader. rewrite Hheader in Hauth.
  destruct (bearer_token token) as (Htruthy & Hstarts & Hrest).
  rewrite Htruthy, Hstarts, Hrest in Hauth. simpl in Hauth.
  destruct (verifyToken env token) as [claims |]; [| discriminate].
  injection Hauth as <-. eauto.
Qed.

(** A signed token decodes to its payload under the secret it was signed
    with, and to nothing under another. *)
Lemma decode_sign payload secret secret' :
  Jwt.decode (Jwt.sign payload secret) secret'
  = if secret =? secret' then Some payload else None.
Proof.
  unfold Jwt.decode, Jwt.sign.
  rewrite read_write_string, read_write_string, read_write_N, read_write_N.
  destruct payload. reflexivity.
Qed.

Lemma verifyToken_sign env claims secret claims' :
  verifyToken env (Jwt.sign claims secret) = Some claims' -> claims' = claims.
Proof.
  unfold verifyToken, Jwt.verify. rewrite decode_sign.
  destruct (secret =? JWT_SECRET env); [| discriminate].
  destruct (now env <? exp claims)%N; [| discriminate]. congruence.
Qed.

Lemma verifyToken_generateToken env env' userId email :
  JWT_SECRET env' = JWT_SECRET env ->
  verifyToken env' (generateToken env userId email)
  = if (now env' <? now env + JWT_EXPIRY)%N
    then Some (mkToken userId email (now env) (now env + JWT_EXPIRY))
    else None.
Proof.
  intros Hsecret. unfold verifyToken, generateToken, Jwt.verify.
  rewrite decode_sign, Hsecret, String.eqb_refl. reflexivity.
Qed.

(** ** The statuses of the handlers, whatever the stores do *)

Section Statuses.
Context {DB OS File : Type} `{!IStorage DB} `{!ObjectStorage OS File}.
Local Abbreviation W := (World DB OS).










Lemma isAuthenticated_answers env req r :
  isAuthenticated env req = Answered r -> status r = 401%Z.
Proof. unfold isAuthenticated. intros Hrun. repeat (break_match; simplify_eq/=); reflexivity. Qed.


(** The access control of the download route, whatever the stores do:
    what [getDocument] returns decides. *)
Lemma downloadDocument_not_found user id (w : W) :
  getDocument id (db w) = Ok None ->
  downloadDocument user id w = (Ok (json_message 404 "Document not found" res0), w).
Proof. intros Hget. unfold downloadDocument. unfold_m. rewrite Hget. reflexivity. Qed.

Lemma downloadDocument_denied user id (w : W) d :
  getDocument id (db w) = Ok (Some d) ->
  Document.userId d <> claims_sub user ->
  downloadDocument user id w = (Ok (json_message 403 "Access denied" res0), w).
Proof.
  intros Hget Hother. unfold downloadDocument. unfold_m. rewrite Hget.
  apply String.eqb_neq in Hother. rewrite Hother. reflexivity.
Qed.

Lemma downloadDocument_stream user id (w w' : W) r bytes complete :
  downloadDocument user id w = (Ok r, w') ->
  payload r = Stream bytes complete ->
  exists d,
    getDocument id (db w) = Ok (Some d) /\
    Document.userId d = claims_sub user /\
    status r = 200%Z /\
    getHeader "Content-Type" r = Some "application/pdf" /\
    getHeader "Content-Disposition" r = Some (attachment d).
Proof.
  intros Hrun Hpayload. run_handler;
    match goal with H : negb (_ =? _) = false |- _ =>
      apply negb_false_iff, String.eqb_eq in H end;
    eexists; repeat split; eauto.
Qed.




End Statuses.

(** ** The portal: what each handler does to the database and the bucket *)

Section PortalFacts.
Implicit Types (w : Portal) (env : Env) (req : Request) (user : ReqUser).

Lemma requester_Some env req uid :
  requester env req = Some uid ->
  exists user, isAuthenticated env req = Continue user /\ claims_sub user = uid.
Proof.
  unfold requester. destruct (isAuthenticated env req) as [r | user]; [discriminate |].
  intros [= <-]. eauto.
Qed.

Lemma requester_None env req :
  requester env req = None ->
  exists r, isAuthenticated env req = Answered r /\ status r = 401%Z.
Proof.
  unfold requester. destruct (isAuthenticated env req) as [r | user] eqn:Hauth; [| discriminate].
  intros _. exists r. split; [reflexivity |]. eapply isAuthenticated_answers, Hauth.
Qed.

Lemma uploadDocument_spec env user file category w w' o :
  uploadDocument env user (Some file) category w = (o, w') ->
  (exists c,
      category_or_other category = BString c /\
      online (os w) = true /\
      has_document (gen_random_uuid env) (db w) = false /\
      o = Ok (json (JsonDocument (uploaded_row env (claims_sub user) file c))
                   (set_status 201 res0)) /\
      w' = mkWorld
             (mkDatabase (users (db w))
                         (documents (db w) ++ [uploaded_row env (claims_sub user) file c]))
             (mkBucket true
                (<[("uploads/" ++ randomUUID env ++ ".pdf") :=
                     uploaded_object (claims_sub user) file]> (objects (os w)))))
  \/ (o = Ok (json_message 500 "Failed to upload document" res0) /\
      db w' = db w /\
      (online (os w) = false \/ category_or_other category = BComposite \/
       has_document (gen_random_uuid env) (db w) = true)).
Proof.
  unfold uploadDocument, insertDocumentSchema_parse. unfold_m. simpl.
  unfold os_uploadBuffer, os_getObjectEntityFile, os_setObjectAclPolicy, db_createDocument.
  destruct (online (os w)) eqn:Hon; simpl.
  2:{ intros [= <- <-]. right. repeat split; auto. }
  rewrite !lookup_insert_eq. simpl. rewrite ?lookup_insert_eq. simpl.
  rewrite insert_insert_eq.
  destruct (category_or_other category) as [c |] eqn:Hc; simpl.
  2:{ intros [= <- <-]. right. repeat split; auto. }
  destruct (has_document (gen_random_uuid env) (db w)) eqn:Hid; simpl.
  { intros [= <- <-]. right. repeat split; auto. }
  intros [= <- <-]. left. exists c. repeat split; reflexivity.
Qed.

Lemma uploadDocument_no_file env user category w :
  uploadDocument env user None category w
  = (Ok (json_message 400 "No file uploaded" res0), w).
Proof. reflexivity. Qed.

(** The download route never writes; its answer follows the row, its
    owner and the object under its path. *)
Lemma downloadDocument_spec user id w :
  exists r, downloadDocument user id w = (Ok r, w) /\
    match document_with_id id (db w) with
    | None => r = json_message 404 "Document not found" res0
    | Some d =>
        if Document.userId d =? claims_sub user
        then
          if online (os w)
          then match objects (os w) !! Document.filepath d with
               | Some obj =>
                   r = mkResponse 200
                         [("Content-Disposition", attachment d); ("Content-Type", PDF)]
                         (Stream (data obj) true)
               | None => r = json_message 404 "File not found on server" res0
               end
          else r = json_message 500 "Failed to download document" res0
        else r = json_message 403 "Access denied" res0
    end.
Proof.
  unfold downloadDocument, pipe, file_catch. unfold_m. simpl.
  unfold db_getDocument, os_getObjectEntityFile, os_createReadStream.
  destruct (document_with_id id (db w)) as [d |]; simpl; [| eauto].
  destruct (Document.userId d =? claims_sub user); simpl; [| eauto].
  destruct (online (os w)) eqn:Hon; simpl; [| eauto].
  destruct (objects (os w) !! Document.filepath d) as [obj |] eqn:Hobj; simpl; [| eauto].
  rewrite ?Hon, ?Hobj. simpl. rewrite ?Hobj. eauto.
Qed.

Lemma deleteDocumentRoute_spec user id w :
  exists r w', deleteDocumentRoute user id w = (Ok r, w') /\
    match document_with_id id (db w) with
    | None => r = json_message 404 "Document not found" res0 /\ w' = w
    | Some d =>
        if Document.userId d =? claims_sub user
        then
          if online (os w)
          then match objects (os w) !! Document.filepath d with
               | Some _ =>
                   r = json_message 200 "Document deleted successfully" res0 /\
                   w' = mkWorld
                          (mkDatabase (users (db w))
                             (List.filter (fun x => negb (Document.id x =? id))
                                          (documents (db w))))
                          (mkBucket true (delete (Document.filepath d) (objects (os w))))
               | None => r = json_message 500 "Failed to delete document" res0 /\ w' = w
               end
          else r = json_message 500 "Failed to delete document" res0 /\ w' = w
        else r = json_message 403 "Access denied" res0 /\ w' = w
    end.
Proof.
  unfold deleteDocumentRoute. unfold_m. simpl.
  unfold db_getDocument, os_deleteObject, db_deleteDocument.
  destruct (document_with_id id (db w)) as [d |] eqn:Hd; simpl; [| eauto].
  destruct (Document.userId d =? claims_sub user); simpl; [| eauto].
  destruct (online (os w)) eqn:Hon; simpl; [| eauto].
  destruct (objects (os w) !! Document.filepath d) as [obj |] eqn:Hobj; simpl; [| eauto].
  assert (Hhas : has_document id (db w) = true).
  { unfold has_document. apply existsb_exists. unfold document_with_id in Hd.
    apply find_some in Hd. eauto. }
  rewrite Hhas. eauto.
Qed.

End PortalFacts.

(** ** Reading and deleting documents *)

Lemma document_with_id_None id d :
  document_with_id id d = None <->
  forall doc, In doc (documents d) -> Document.id doc <> id.
Proof.
  unfold document_with_id. split.
  - intros Hnone doc Hin Heq. eapply find_none in Hnone; [| exact Hin].
    simpl in Hnone. apply String.eqb_neq in Hnone. contradiction.
  - intros Hall. destruct (List.find _ _) as [doc |] eqn:Hfind; [| reflexivity].
    apply find_some in Hfind as [Hin Heq]. apply String.eqb_eq in Heq.
    destruct (Hall doc Hin Heq).
Qed.

Lemma document_with_id_Some id d doc :
  document_with_id id d = Some doc -> In doc (documents d) /\ Document.id doc = id.
Proof.
  unfold document_with_id. intros Hfind. apply find_some in Hfind as [Hin Heq].
  apply String.eqb_eq in Heq. auto.
Qed.

Lemma listDocuments_spec user (w : Portal) :
  listDocuments user w
  = (Ok (json (JsonDocuments
                 (List.filter (fun r => Document.userId r =? claims_sub user)
                              (documents (db w)))) res0), w).
Proof. reflexivity. Qed.

(** What [serve] does on a guarded route once the requester is known. *)
Lemma serve_guarded env req (w : Portal) user :
  isAuthenticated env req = Continue user ->
  serve env req w =
  match route req with
  | PostSignup => answer (signup env req) w
  | PostLogin => answer (login env req) w
  | GetLogout => answer logout w
  | GetAuthUser => answer (authUser user) w
  | GetDocuments => answer (listDocuments user) w
  | PostDocumentsUpload =>
      match upload_single req with
      | Throw err => (errorMiddleware err, w)
      | Ok (file, category) => answer (uploadDocument env user file category) w
      end
  | GetDocumentDownload => answer (downloadDocument user (params_id req)) w
  | GetDocumentPreview => answer (previewDocument user (params_id req)) w
  | DeleteDocumentById => answer (deleteDocumentRoute user (params_id req)) w
  end.
Proof.
  intros Hauth. unfold serve, handle, authenticated. rewrite Hauth.
  destruct (route req); reflexivity.
Qed.

(** A guarded route turns away a request that is not authenticated. *)
Lemma serve_unauthenticated env req (w : Portal) r :
  isAuthenticated env req = Answered r ->
  route req <> PostSignup -> route req <> PostLogin -> route req <> GetLogout ->
  serve env req w = (Respond r, w).
Proof.
  intros Hauth H1 H2 H3. unfold serve, handle, authenticated. rewrite Hauth.
  destruct (route req); congruence.
Qed.

(** C1: a download by an authenticated user answers 404 when no document
    has the id, 403 with nothing but a message when the document belongs to
    someone else; bytes go out only for a document of the requester, and
    then they are the stored object, sent with status 200,
    [Content-Type: application/pdf] and a [Content-Disposition] of
    [attachment] whose filename is the original filename, URI-encoded (it
    decodes back to it). *)
Theorem download_access_control env req (w : Portal) uid :
  route req = GetDocumentDownload ->
  requester env req = Some uid ->
  ((forall doc, In doc (documents (db w)) -> Document.id doc <> params_id req) ->
   fst (serve env req w) = Respond (json_message 404 "Document not found" res0)) /\
  (forall d, document_with_id (params_id req) (db w) = Some d ->
             Document.userId d <> uid ->
             fst (serve env req w) = Respond (json_message 403 "Access denied" res0)) /\
  (forall r bytes complete,
      fst (serve env req w) = Respond r -> payload r = Stream bytes complete ->
      exists d obj,
        document_with_id (params_id req) (db w) = Some d /\
        Document.userId d = uid /\
        objects (os w) !! Document.filepath d = Some obj /\
        bytes = data obj /\
        status r = 200%Z /\
        getHeader "Content-Type" r = Some "application/pdf" /\
        exists name,
          getHeader "Content-Disposition" r
          = Some ("attachment; filename=" ++ dquote ++ name ++ dquote) /\
          name = Js.encodeURIComponent (Document.originalFilename d) /\
          Js.decodeURIComponent name = Some (Document.originalFilename d)) /\
  (forall d obj,
      document_with_id (params_id req) (db w) = Some d ->
      Document.userId d = uid ->
      online (os w) = true ->
      objects (os w) !! Document.filepath d = Some obj ->
      fst (serve env req w)
      = Respond (mkResponse 200
                   [("Content-Disposition", attachment d); ("Content-Type", PDF)]
                   (Stream (data obj) true))).
Proof.
  intros Hroute Hreq.
  apply requester_Some in Hreq as (user & Hauth & <-).
  rewrite (serve_guarded _ _ _ _ Hauth), Hroute. unfold answer.
  destruct (downloadDocument_spec user (params_id req) w) as (r & -> & Hr). simpl.
  repeat split.
  - intros Hnone. apply document_with_id_None in Hnone. rewrite Hnone in Hr. by subst r.
  - intros d Hd Hother. rewrite Hd in Hr.
    apply String.eqb_neq in Hother. rewrite Hother in Hr. by subst r.
  - intros r' bytes complete [= <-] Hpayload.
    destruct (document_with_id (params_id req) (db w)) as [d |]; [| by subst r].
    destruct (Document.userId d =? claims_sub user) eqn:Hown; [| by subst r].
    destruct (online (os w)); [| by subst r].
    destruct (objects (os w) !! Document.filepath d) as [obj |] eqn:Hobj; [| by subst r].
    subst r. simpl in Hpayload. injection Hpayload as <- <-.
    apply String.eqb_eq in Hown. exists d, obj. repeat split; auto.
    eexists. repeat split. apply decode_encodeURIComponent.
  - intros d obj Hd Hown Hon Hobj.
    apply String.eqb_eq in Hown. rewrite Hd, Hown, Hon, Hobj in Hr. by subst r.
Qed.

(** Bob asks for Alice's document and is refused. *)
Lemma download_access_control_witness :
  fst (serve ex_env4 (ex_get GetDocumentDownload ex_bob "doc-2") ex_w3)
  = Respond (json_message 403 "Access denied" res0).
Proof.
  eapply (proj1 (proj2 (download_access_control ex_env4
                          (ex_get GetDocumentDownload ex_bob "doc-2") ex_w3 "user-3" _ _))).
  - vm_compute. reflexivity.
  - vm_compute. discriminate.
  Unshelve.
  + reflexivity.
  + vm_compute. reflexivity.
Defined.

(** C2: the list an authenticated user gets holds exactly the documents
    whose [userId] is the user's id, and listing changes nothing. *)
Theorem list_own_documents env req (w : Portal) uid :
  route req = GetDocuments ->
  requester env req = Some uid ->
  exists docs,
    serve env req w = (Respond (json (JsonDocuments docs) res0), w) /\
    forall d, In d docs <-> In d (documents (db w)) /\ Document.userId d = uid.
Proof.
  intros Hroute Hreq.
  apply requester_Some in Hreq as (user & Hauth & <-).
  rewrite (serve_guarded _ _ _ _ Hauth), Hroute. unfold answer.
  rewrite listDocuments_spec. eexists. split; [reflexivity |].
  intros d. rewrite filter_In, String.eqb_eq. reflexivity.
Qed.

Lemma list_own_documents_witness :
  exists docs,
    serve ex_env4 (ex_get GetDocuments ex_bob EmptyString) ex_w3
    = (Respond (json (JsonDocuments docs) res0), ex_w3) /\
    forall d, In d docs <-> In d (documents (db ex_w3)) /\ Document.userId d = "user-3".
Proof.
  apply (list_own_documents ex_env4 (ex_get GetDocuments ex_bob EmptyString) ex_w3 "user-3");
    vm_compute; reflexivity.
Defined.

(** ** Uploading *)


Lemma fileFilter_rejects file :
  ~ (mimetype file = "application/pdf" /\
     Js.toLowerCase (Path.extname (originalname file)) = ".pdf") ->
  fileFilter file = Throw (Error "Only PDF files are allowed").
Proof.
  intros Hnot. unfold fileFilter, PDF.
  destruct (mimetype file =? "application/pdf") eqn:Hmime; [| reflexivity].
  destruct (Js.toLowerCase (Path.extname (originalname file)) =? ".pdf") eqn:Hext;
    [| reflexivity].
  apply String.eqb_eq in Hmime, Hext. tauto.
Qed.

Lemma fileFilter_cases file :
  fileFilter file = Ok true \/ fileFilter file = Throw (Error "Only PDF files are allowed").
Proof. unfold fileFilter. destruct (_ && _); auto. Qed.

Lemma truthy_nonempty s : s <> EmptyString -> Js.truthy s = true.
Proof.
  intros Hne. unfold Js.truthy. apply negb_true_iff, String.eqb_neq. exact Hne.
Qed.

(** When no text field reaches the limit, multer is what it does with the
    file parts, and [req.body.category] is what the fields append. *)
Lemma multer_parts_fields parts : forall n file body,
  forallb within_limit (part_fields parts) = true ->
  multer_parts n parts file body
  = match multer_files n (part_files parts) file with
    | Throw e => Throw e
    | Ok f => Ok (f, fold_left appendField (part_fields parts) body)
    end.
Proof.
  induction parts as [| [value | part] parts IH]; intros n file body Hall; [reflexivity | |].
  - cbn in Hall. apply andb_prop in Hall as [Hvalue Hall]. unfold within_limit in Hvalue.
    cbn [multer_parts]. rewrite N.leb_antisym, Hvalue. cbn [negb].
    rewrite (IH _ _ _ Hall). reflexivity.
  - cbn in Hall. cbn [multer_parts part_files flat_map app multer_files].
    change (flat_map _ parts) with (part_files parts).
    destruct (negb (Js.truthy (originalname part))); [apply IH, Hall |].
    destruct (negb (fieldname part =? "file") || (n =? 0)%nat); [reflexivity |].
    destruct (fileFilter part) as [[|] | e]; [| apply IH, Hall | reflexivity].
    destruct (fileSize <=? byteLength (buffer part))%N; [reflexivity | apply IH, Hall].
Qed.

(** multer hands the request on only when every text field is short of
    the limit. *)
Lemma multer_parts_ok parts : forall n file body f c,
  multer_parts n parts file body = Ok (f, c) ->
  forallb within_limit (part_fields parts) = true.
Proof.
  induction parts as [| [value | part] parts IH]; intros n file body f c; [reflexivity | |].
  - cbn [multer_parts]. destruct (fieldSize <=? Js.utf8Length value)%N eqn:Hvalue;
      [discriminate |].
    intros Hrun. cbn. apply andb_true_intro. split; [| eapply IH, Hrun].
    unfold within_limit. rewrite N.ltb_antisym, Hvalue. reflexivity.
  - cbn [multer_parts].
    assert (Hsame : forallb within_limit (part_fields (FileField part :: parts))
                    = forallb within_limit (part_fields parts)) by reflexivity.
    rewrite Hsame.
    destruct (negb (Js.truthy (originalname part))); [apply IH |].
    destruct (negb (fieldname part =? "file") || (n =? 0)%nat); [discriminate |].
    destruct (fileFilter part) as [[|] | e]; [| apply IH | discriminate].
    destruct (fileSize <=? byteLength (buffer part))%N; [discriminate | apply IH].
Qed.

Lemma upload_single_fields req form :
  multipart req = Some form ->
  fields_within_limit form = true ->
  upload_single req
  = match multer_files 1 (form_files form) None with
    | Throw e => Throw e
    | Ok file => Ok (file, form_category form)
    end.
Proof.
  intros Hform Hfields. unfold upload_single. rewrite Hform.
  apply multer_parts_fields, Hfields.
Qed.

(** multer on a form with one named file part in the field [file], and
    text fields short of the limit. *)
Lemma upload_single_one req form file :
  multipart req = Some form ->
  form_files form = [file] ->
  fieldname file = "file" ->
  originalname file <> EmptyString ->
  fields_within_limit form = true ->
  upload_single req =
  match fileFilter file with
  | Throw e => Throw e
  | Ok false => Ok (None, form_category form)
  | Ok true =>
      if (fileSize <=? byteLength (buffer file))%N
      then Throw (MulterError "LIMIT_FILE_SIZE" "File too large")
      else Ok (Some file, form_category form)
  end.
Proof.
  intros Hform Hfiles Hfield Hname Hfields.
  rewrite (upload_single_fields _ _ Hform Hfields), Hfiles. simpl.
  rewrite (truthy_nonempty _ Hname), Hfield. simpl.
  destruct (fileFilter file) as [[|] | e]; [| reflexivity | reflexivity].
  destruct (fileSize <=? byteLength (buffer file))%N; reflexivity.
Qed.

(** What multer lets through was let through by [fileFilter] and is short
    of the size limit. *)
Lemma multer_files_file files : forall n acc file,
  multer_files n files acc = Ok (Some file) ->
  acc = Some file \/
  (In file files /\ fileFilter file = Ok true /\ (byteLength (buffer file) < fileSize)%N).
Proof.
  induction files as [| part files IH]; intros n acc file; simpl.
  - intros [= ->]. auto.
  - destruct (negb (Js.truthy (originalname part))).
    { intros Hrun. apply IH in Hrun as [? | (? & ? & ?)]; auto. }
    destruct (negb (fieldname part =? "file") || (n =? 0)%nat); [discriminate |].
    destruct (fileFilter part) as [[|] | e] eqn:Hfilter; [| | discriminate].
    + destruct (fileSize <=? byteLength (buffer part))%N eqn:Hsize; [discriminate |].
      apply N.leb_gt in Hsize.
      intros Hrun. apply IH in Hrun as [[= <-] | (? & ? & ?)]; auto.
    + intros Hrun. apply IH in Hrun as [? | (? & ? & ?)]; auto.
Qed.

Lemma upload_single_file req file category :
  upload_single req = Ok (Some file, category) ->
  exists form,
    multipart req = Some form /\ category = form_category form /\
    In file (form_files form) /\ fileFilter file = Ok true /\
    (byteLength (buffer file) < fileSize)%N /\
    fields_within_limit form = true.
Proof.
  intros Hrun. pose proof Hrun as Hok. unfold upload_single in Hok.
  destruct (multipart req) as [form |] eqn:Hform; [| discriminate].
  apply multer_parts_ok in Hok. change (fields_within_limit form = true) in Hok.
  rewrite (upload_single_fields _ _ Hform Hok) in Hrun.
  destruct (multer_files 1 (form_files form) None) as [f |] eqn:Hfiles; [| discriminate].
  injection Hrun as -> <-. apply multer_files_file in Hfiles as [[=] | (? & ? & ?)].
  exists form. auto 10.
Qed.

(** The errors multer raises are answered with 400, with one of four
    messages. *)
Lemma upload_single_error req err :
  upload_single req = Throw err ->
  errorMiddleware err
  = Respond (json_message 400 "Only PDF files are allowed" res0)
  \/ errorMiddleware err
     = Respond (json_message 400 "File size must be less than 10MB" res0)
  \/ errorMiddleware err
     = Respond (json_message 400 "Unexpected field" res0)
  \/ errorMiddleware err
     = Respond (json_message 400 "Field value too long" res0).
Proof.
  unfold upload_single. destruct (multipart req) as [form |]; [| discriminate].
  generalize 1%nat, (@None FilePart), (@None BodyValue).
  induction (form_parts form) as [| [value | part] parts IH]; intros n acc body;
    cbn [multer_parts]; [discriminate | |].
  - destruct (fieldSize <=? Js.utf8Length value)%N; [| apply IH].
    intros [= <-]. auto.
  - destruct (negb (Js.truthy (originalname part))); [apply IH |].
    destruct (negb (fieldname part =? "file") || (n =? 0)%nat).
    { intros [= <-]. auto. }
    destruct (fileFilter_cases part) as [-> | ->].
    + destruct (fileSize <=? byteLength (buffer part))%N; [| apply IH].
      intros [= <-]. auto.
    + intros [= <-]. auto.
Qed.

(** A text field that reaches the limit makes multer abort: with
    [LIMIT_FIELD_VALUE] when every named file part is one it accepts. *)
Lemma multer_parts_field_error parts : forall n file body,
  forallb within_limit (part_fields parts) = false ->
  exists err, multer_parts n parts file body = Throw err.
Proof.
  induction parts as [| [value | part] parts IH]; intros n file body Hall;
    [discriminate | |].
  - cbn [multer_parts]. destruct (fieldSize <=? Js.utf8Length value)%N eqn:Hvalue; [eauto |].
    apply IH. cbn in Hall. unfold within_limit in Hall at 1.
    rewrite N.ltb_antisym, Hvalue in Hall. exact Hall.
  - cbn [multer_parts].
    change (forallb within_limit (part_fields parts) = false) in Hall.
    destruct (negb (Js.truthy (originalname part))); [apply IH, Hall |].
    destruct (negb (fieldname part =? "file") || (n =? 0)%nat); [eauto |].
    destruct (fileFilter part) as [[|] | e]; [| apply IH, Hall | eauto].
    destruct (fileSize <=? byteLength (buffer part))%N; [eauto | apply IH, Hall].
Qed.

Lemma multer_parts_field_too_long parts : forall n file body,
  forallb within_limit (part_fields parts) = false ->
  List.length (List.filter (fun part => Js.truthy (originalname part)) (part_files parts))
  <= n ->
  (forall part, In part (part_files parts) ->
                Js.truthy (originalname part) = true ->
                fieldname part = "file" /\ fileFilter part = Ok true /\
                (byteLength (buffer part) < fileSize)%N) ->
  multer_parts n parts file body
  = Throw (MulterError "LIMIT_FIELD_VALUE" "Field value too long").
Proof.
  induction parts as [| [value | part] parts IH]; intros n file body Hall Hn Hparts;
    [discriminate | |].
  - cbn [multer_parts]. destruct (fieldSize <=? Js.utf8Length value)%N eqn:Hvalue;
      [reflexivity |].
    apply IH; [| exact Hn | exact Hparts]. cbn in Hall. unfold within_limit in Hall at 1.
    rewrite N.ltb_antisym, Hvalue in Hall. exact Hall.
  - cbn [multer_parts].
    change (forallb within_limit (part_fields parts) = false) in Hall.
    change (part_files (FileField part :: parts)) with (part :: part_files parts)
      in Hn, Hparts.
    cbn [List.filter] in Hn.
    assert (Hrest : forall p, In p (part_files parts) ->
                      Js.truthy (originalname p) = true ->
                      fieldname p = "file" /\ fileFilter p = Ok true /\
                      (byteLength (buffer p) < fileSize)%N)
      by (intros p Hin; apply Hparts; right; exact Hin).
    destruct (Js.truthy (originalname part)) eqn:Hnamed; cbn [negb];
      [| apply IH; [exact Hall | exact Hn | exact Hrest]].
    destruct (Hparts part (or_introl eq_refl) Hnamed) as (Hfield & Hfilter & Hsize).
    rewrite Hfield, Hfilter. apply N.leb_gt in Hsize. rewrite Hsize.
    cbn [List.length] in Hn.
    destruct n as [| n]; [lia |].
    change ("file" =? "file") with true. cbn [negb orb Nat.eqb].
    apply IH; [exact Hall | cbn; lia | exact Hrest].
Qed.

(** A failing write of the object store ends the upload with 500 before
    the database is touched, whatever the two stores are. *)
Lemma uploadDocument_write_failure {DB OS File : Type}
      `{!IStorage DB} `{!ObjectStorage OS File}
      env user file category (w : World DB OS) e :
  uploadBuffer (buffer file) ("uploads/" ++ randomUUID env ++ ".pdf") PDF (os w) = Throw e ->
  uploadDocument env user (Some file) category w
  = (Ok (json_message 500 "Failed to upload document" res0), w).
Proof.
  intros Hwrite. unfold uploadDocument. unfold_m. rewrite Hwrite. reflexivity.
Qed.

(** The upload route, end to end: either nothing is written to the tables
    and the status is not 201, or the request was authenticated, multer let
    a PDF short of the limit through, and one row and one object were
    written. *)
Lemma serve_upload_cases env req (w : Portal) :
  route req = PostDocumentsUpload ->
  (exists r, fst (serve env req w) = Respond r /\ status r <> 201%Z /\
             db (snd (serve env req w)) = db w)
  \/ (exists user file category c,
        isAuthenticated env req = Continue user /\
        upload_single req = Ok (Some file, category) /\
        category_or_other category = BString c /\
        online (os w) = true /\
        has_document (gen_random_uuid env) (db w) = false /\
        serve env req w =
        (Respond (json (JsonDocument (uploaded_row env (claims_sub user) file c))
                       (set_status 201 res0)),
         mkWorld
           (mkDatabase (users (db w))
                       (documents (db w) ++ [uploaded_row env (claims_sub user) file c]))
           (mkBucket true
              (<[("uploads/" ++ randomUUID env ++ ".pdf") :=
                   uploaded_object (claims_sub user) file]> (objects (os w)))))).
Proof.
  intros Hroute.
  destruct (isAuthenticated env req) as [r401 | user] eqn:Hauth.
  { left. rewrite (serve_unauthenticated _ _ _ _ Hauth) by congruence.
    apply isAuthenticated_answers in Hauth. exists r401. simpl.
    split; [reflexivity |]. split; [rewrite Hauth; discriminate | auto]. }
  rewrite (serve_guarded _ _ _ _ Hauth), Hroute.
  destruct (upload_single req) as [[[file |] category] | err] eqn:Hmulter.
  - unfold answer.
    destruct (uploadDocument env user (Some file) category w) as [o w'] eqn:Hrun.
    apply uploadDocument_spec in Hrun as [(c & Hc & Hon & Hid & -> & ->) | (-> & ? & _)].
    + right. exists user, file, category, c. auto 10.
    + left. eexists. simpl. split; [reflexivity |]. split; [discriminate | auto].
  - left. unfold answer. rewrite uploadDocument_no_file. eexists. simpl.
    split; [reflexivity |]. split; [discriminate | auto].
  - left. destruct (upload_single_error _ _ Hmulter) as [-> | [-> | [-> | ->]]];
      eexists; simpl; (split; [reflexivity |]); (split; [discriminate | auto]).
Qed.

(** C5: a row of [documents] is written only by an upload that stored its
    file. When the write to the object store throws, the answer is 500
    and nothing has changed; whenever the answer is not 201 the database is
    as before; and when the database changed, the answer is 201, one row
    was added and the bucket holds the file under that row's [filepath]. *)
Theorem upload_failure_leaves_database env req (w : Portal) :
  route req = PostDocumentsUpload ->
  (forall user file category e,
      isAuthenticated env req = Continue user ->
      upload_single req = Ok (Some file, category) ->
      uploadBuffer (buffer file) ("uploads/" ++ randomUUID env ++ ".pdf") PDF (os w)
      = Throw e ->
      serve env req w = (Respond (json_message 500 "Failed to upload document" res0), w)) /\
  (status_of (fst (serve env req w)) <> Some 201%Z ->
   db (snd (serve env req w)) = db w) /\
  (db (snd (serve env req w)) <> db w ->
   exists d file category,
     status_of (fst (serve env req w)) = Some 201%Z /\
     documents (db (snd (serve env req w))) = (documents (db w) ++ [d])%list /\
     upload_single req = Ok (Some file, category) /\
     objects (os (snd (serve env req w))) !! Document.filepath d
     = Some (uploaded_object (Document.userId d) file)).
Proof.
  intros Hroute. split; [| split].
  - intros user file category e Hauth Hmulter Hwrite.
    rewrite (serve_guarded _ _ _ _ Hauth), Hroute, Hmulter. unfold answer.
    rewrite (uploadDocument_write_failure _ _ _ _ _ _ Hwrite). reflexivity.
  - intros Hstatus.
    destruct (serve_upload_cases env req w Hroute)
      as [(r & _ & _ & Hdb) | (user & file & category & c & _ & _ & _ & _ & _ & Hrun)];
      [exact Hdb |].
    rewrite Hrun in Hstatus. simpl in Hstatus. congruence.
  - intros Hchanged.
    destruct (serve_upload_cases env req w Hroute)
      as [(r & _ & _ & Hdb) | (user & file & category & c & _ & Hmulter & _ & _ & _ & Hrun)];
      [contradiction |].
    rewrite Hrun. simpl.
    exists (uploaded_row env (claims_sub user) file c), file, category.
    repeat split; [exact Hmulter |]. apply lookup_insert_eq.
Qed.

Lemma upload_failure_leaves_database_witness :
  serve ex_env4 (ex_upload ex_alice [] ex_pdf) ex_w3_offline
  = (Respond (json_message 500 "Failed to upload document" res0), ex_w3_offline).
Proof.
  apply (proj1 (upload_failure_leaves_database ex_env4 (ex_upload ex_alice [] ex_pdf)
                  ex_w3_offline eq_refl)
               (mkReqUser "user-1" "alice@example.org" "user-1") ex_pdf None unavailable);
    vm_compute; reflexivity.
Defined.

(** The route on an authenticated request whose form has one named file
    part in the field [file] and text fields short of the limit. *)
Lemma serve_upload_one env req (w : Portal) uid form file :
  route req = PostDocumentsUpload ->
  requester env req = Some uid ->
  multipart req = Some form ->
  form_files form = [file] ->
  fieldname file = "file" ->
  originalname file <> EmptyString ->
  fields_within_limit form = true ->
  exists user,
    claims_sub user = uid /\
    serve env req w =
    match fileFilter file with
    | Throw e => (errorMiddleware e, w)
    | Ok false => answer (uploadDocument env user None (form_category form)) w
    | Ok true =>
        if (fileSize <=? byteLength (buffer file))%N
        then (errorMiddleware (MulterError "LIMIT_FILE_SIZE" "File too large"), w)
        else answer (uploadDocument env user (Some file) (form_category form)) w
    end.
Proof.
  intros Hroute Hreq Hform Hfiles Hfield Hname Hfields.
  apply requester_Some in Hreq as (user & Hauth & <-). exists user. split; [reflexivity |].
  rewrite (serve_guarded _ _ _ _ Hauth), Hroute.
  rewrite (upload_single_one _ _ _ Hform Hfiles Hfield Hname Hfields).
  destruct (fileFilter file) as [[|] | e]; [| reflexivity | reflexivity].
  destruct (fileSize <=? byteLength (buffer file))%N; reflexivity.
Qed.

(** A request that does not get through [isAuthenticated] is answered 401
    by every guarded route, and changes nothing. *)
Lemma serve_no_requester env req (w : Portal) :
  guarded (route req) = true ->
  requester env req = None ->
  exists r, serve env req w = (Respond r, w) /\ status r = 401%Z.
Proof.
  intros Hguard Hreq. apply requester_None in Hreq as (r & Hauth & Hstatus).
  exists r. split; [| exact Hstatus].
  apply (serve_unauthenticated _ _ _ _ Hauth); intros Hroute; rewrite Hroute in Hguard;
    discriminate Hguard.
Qed.





(** C9, as the code has it. An upload without a valid bearer token is
    answered 401. On an authenticated request that carries one named file
    in the field [file] and whose text fields are short of the field
    limit: a file that passes the PDF check and has 10 * 1024 * 1024 bytes
    or more gets 400 with [File size must be less than 10MB] and nothing
    is written, and one of fewer bytes goes on to the handler; a file that
    fails the PDF check gets the message of that check whatever its size.
    The check of the upload form tests the type first as well, and lets a
    file of exactly that size through. *)
Theorem upload_size_limit env req (w : Portal) form file :
  route req = PostDocumentsUpload ->
  multipart req = Some form ->
  form_files form = [file] ->
  fieldname file = "file" ->
  originalname file <> EmptyString ->
  fields_within_limit form = true ->
  fileSize = 10485760%N /\
  (requester env req = None ->
   exists r, serve env req w = (Respond r, w) /\ status r = 401%Z) /\
  (forall uid,
      requester env req = Some uid ->
      (fileFilter file = Ok true ->
       (10 * 1024 * 1024 <= byteLength (buffer file))%N ->
       serve env req w
       = (Respond (json_message 400 "File size must be less than 10MB" res0), w)) /\
      (fileFilter file <> Ok true ->
       serve env req w
       = (Respond (json_message 400 "Only PDF files are allowed" res0), w))) /\
  (fileFilter file = Ok true ->
   (byteLength (buffer file) < 10 * 1024 * 1024)%N ->
   upload_single req = Ok (Some file, form_category form)) /\
  (forall f,
      validateFile f =
      if negb (file_type f =? "application/pdf") then Some "Only PDF files are allowed"
      else if (10 * 1024 * 1024 <? file_size f)%N then Some "File size must be less than 10MB"
           else None).
Proof.
  intros Hroute Hform Hfiles Hfield Hname Hfields.
  split; [reflexivity |]. split; [| split; [| split; [| reflexivity]]].
  - apply serve_no_requester. rewrite Hroute. reflexivity.
  - intros uid Hreq.
    destruct (serve_upload_one env req w _ _ _ Hroute Hreq Hform Hfiles Hfield Hname Hfields)
      as (user & <- & Hrun).
    split.
    + intros Hfilter Hsize. rewrite Hfilter in Hrun.
      apply N.leb_le in Hsize. change (10 * 1024 * 1024)%N with fileSize in Hsize.
      rewrite Hsize in Hrun. exact Hrun.
    + intros Hfilter. destruct (fileFilter_cases file) as [Hok | Hbad]; [contradiction |].
      rewrite Hbad in Hrun. exact Hrun.
  - intros Hfilter Hsize.
    rewrite (upload_single_one _ _ _ Hform Hfiles Hfield Hname Hfields), Hfilter.
    apply N.leb_gt in Hsize. change (10 * 1024 * 1024)%N with fileSize in Hsize.
    rewrite Hsize. reflexivity.
Qed.

Lemma upload_size_limit_witness :
  serve ex_env4 (ex_upload ex_alice [] ex_big_pdf) ex_w3
  = (Respond (json_message 400 "File size must be less than 10MB" res0), ex_w3).
Proof.
  apply (proj1 (proj1 (proj2 (proj2 (upload_size_limit ex_env4
                         (ex_upload ex_alice [] ex_big_pdf) ex_w3
                         (mkForm [FileField ex_big_pdf]) ex_big_pdf
                         eq_refl eq_refl eq_refl eq_refl ltac:(discriminate) eq_refl)))
                      "user-1" ltac:(vm_compute; reflexivity)));
    [reflexivity | vm_compute; discriminate].
Defined.

(** C9 as stated fails. A PDF of exactly 10 * 1024 * 1024 bytes, which is
    of at most that size, does not pass: multer aborts when the file
    reaches the limit, and the answer is 400 with the size message; the
    upload form lets the same file through. A text file of 10 MB and one
    byte gets the message of the PDF check, from the server and from the
    upload form alike; an upload without a token gets 401; and a PDF over
    the limit sent in another field gets the message of multer. *)
Lemma upload_size_limit_counterexample :
  ((byteLength (buffer ex_limit_pdf) <= 10 * 1024 * 1024)%N /\
   fileFilter ex_limit_pdf = Ok true /\
   requester ex_env4 (ex_upload ex_alice [] ex_limit_pdf) = Some "user-1" /\
   upload_single (ex_upload ex_alice [] ex_limit_pdf)
   = Throw (MulterError "LIMIT_FILE_SIZE" "File too large") /\
   serve ex_env4 (ex_upload ex_alice [] ex_limit_pdf) ex_w3
   = (Respond (json_message 400 "File size must be less than 10MB" res0), ex_w3) /\
   validateFile (browser_file ex_limit_pdf) = None) /\
  (10 * 1024 * 1024 < byteLength (buffer ex_big_text))%N /\
  (10 * 1024 * 1024 < byteLength (buffer ex_big_pdf))%N /\
  requester ex_env4 (ex_upload ex_alice [] ex_big_text) = Some "user-1" /\
  fst (serve ex_env4 (ex_upload ex_alice [] ex_big_text) ex_w3)
  = Respond (json_message 400 "Only PDF files are allowed" res0) /\
  validateFile (mkClientFile "notes.txt" "text/plain" (10 * 1024 * 1024 + 1))
  = Some "Only PDF files are allowed" /\
  fst (serve ex_env4 (ex_upload None [] ex_big_pdf) ex_w3)
  = Respond (json_message 401 "Unauthorized" res0) /\
  fst (serve ex_env4 (ex_upload ex_alice [] ex_big_pdf_other_field) ex_w3)
  = Respond (json_message 400 "Unexpected field" res0).
Proof.
  repeat split; try (vm_compute; reflexivity). vm_compute. discriminate.
Qed.





(** ** What a request can change *)

Lemma has_user_app u d row :
  has_user u (mkDatabase (users d ++ [row]) (documents d))
  = has_user u d || (User.id row =? u).
Proof. unfold has_user. simpl. rewrite existsb_app. simpl. by rewrite orb_false_r. Qed.

(** Rewriting rows without touching their keys keeps the set of keys. *)
Lemma has_user_map u (f : User.t -> User.t) l :
  (forall r, In r l -> User.id (f r) = User.id r) ->
  existsb (fun x => User.id x =? u) (List.map f l) = existsb (fun x => User.id x =? u) l.
Proof.
  induction l as [| r l IH]; intros Hkeys; simpl; [reflexivity |].
  rewrite Hkeys by (left; reflexivity). f_equal. apply IH.
  intros r' Hin. apply Hkeys. right. exact Hin.
Qed.

Lemma db_upsertUser_effect uuid t u d row d' :
  db_upsertUser uuid t u d = Ok (row, d') ->
  documents d' = documents d /\
  has_user (User.id row) d' = true /\
  (forall x, has_user x d = true -> has_user x d' = true).
Proof.
  unfold db_upsertUser. destruct (existsb _ _); [discriminate |].
  destruct (List.find _ _) as [old |] eqn:Hfind; intros [= <- <-]; simpl.
  - apply find_some in Hfind as [Hin Hkey].
    assert (Hmap : forall x,
               has_user x (mkDatabase
                             (List.map (fun r => if User.id r =? default uuid (UpsertUser.id u)
                                                 then User.mk (default uuid (UpsertUser.id u))
                                                        (UpsertUser.email u)
                                                        (UpsertUser.firstName u)
                                                        (UpsertUser.lastName u)
                                                        (UpsertUser.profileImageUrl u)
                                                        (UpsertUser.passwordHash u)
                                                        (User.createdAt old) (Some t)
                                                 else r) (users d))
                             (documents d))
               = has_user x d).
    { intros x. unfold has_user. simpl. apply has_user_map. intros r _.
      destruct (User.id r =? default uuid (UpsertUser.id u)) eqn:Hr; [| reflexivity].
      apply String.eqb_eq in Hr. simpl. congruence. }
    split; [reflexivity |]. split.
    + rewrite Hmap. unfold has_user. apply existsb_exists. eauto.
    + intros x Hx. rewrite Hmap. exact Hx.
  - split; [reflexivity |]. split.
    + rewrite has_user_app. simpl. rewrite String.eqb_refl. apply orb_true_r.
    + intros x Hx. rewrite has_user_app, Hx. reflexivity.
Qed.

(** The token signup and login hand out is signed under the secret of
    the server for a user of the table. *)
Lemma signup_effect env req (w w' : Portal) o :
  signup env req w = (o, w') ->
  documents (db w') = documents (db w) /\
  (forall x, has_user x (db w) = true -> has_user x (db w') = true) /\
  (forall r token user,
      o = Ok r -> payload r = JsonSession token user ->
      exists claims, token = Jwt.sign claims (JWT_SECRET env) /\
                     has_user (tok_userId claims) (db w') = true).
Proof.
  unfold signup, generateToken. unfold_m. simpl. unfold db_getUserByEmail.
  intros Hrun.
  repeat (break_match; simplify_eq/=);
    try (repeat split; auto; intros; simplify_eq/=; fail).
  match goal with H : db_upsertUser _ _ _ _ = Ok _ |- _ =>
    apply db_upsertUser_effect in H as (Hdocs & Hrow & Hmono) end.
  repeat split; auto. intros r token user' [= <-] [= <- <-]. eauto.
Qed.

Lemma login_effect env req (w w' : Portal) o :
  login env req w = (o, w') ->
  w' = w /\
  (forall r token user,
      o = Ok r -> payload r = JsonSession token user ->
      exists claims, token = Jwt.sign claims (JWT_SECRET env) /\
                     has_user (tok_userId claims) (db w) = true).
Proof.
  unfold login, generateToken. unfold_m. simpl. unfold db_getUserByEmail.
  intros Hrun.
  repeat (break_match; simplify_eq/=); try (split; auto; intros; simplify_eq/=; fail).
  split; [reflexivity |]. intros r token user' [= <-] [= <- <-].
  eexists. split; [reflexivity |]. simpl.
  match goal with H : List.find _ _ = Some _ |- _ => apply find_some in H as [Hin _] end.
  unfold has_user. apply existsb_exists. eexists. split; [exact Hin |].
  apply String.eqb_refl.
Qed.

Lemma authUser_effect user (w w' : Portal) o : authUser user w = (o, w') -> w' = w.
Proof. unfold authUser. unfold_m. simpl. by intros [= _ <-]. Qed.

Lemma previewDocument_effect user id (w w' : Portal) o :
  previewDocument user id w = (o, w') -> w' = w.
Proof.
  unfold previewDocument, pipe, file_catch. unfold_m. simpl. intros Hrun.
  repeat (break_match; simplify_eq/=); reflexivity.
Qed.

Lemma isAuthenticated_message env req r :
  isAuthenticated env req = Answered r ->
  exists message, r = json_message 401 message res0.
Proof.
  unfold isAuthenticated. intros Hrun. repeat (break_match; simplify_eq/=); eauto.
Qed.

(** Only signup and login answer with a token. *)
Lemma session_routes {DB OS File : Type} `{!IStorage DB} `{!ObjectStorage OS File}
      env req (w : World DB OS) r token user :
  fst (handle env req w) = Respond r ->
  payload r = JsonSession token user ->
  route req = PostSignup \/ route req = PostLogin.
Proof.
  intros Hrun Hpayload. unfold handle in Hrun.
  destruct (route req); auto; exfalso; unfold authenticated, answer in Hrun;
    try (destruct (isAuthenticated env req) as [r401 | who] eqn:Hauth;
         [apply isAuthenticated_message in Hauth as [message ->]; simpl in Hrun;
          injection Hrun as <-; discriminate Hpayload |]).
  - simpl in Hrun. injection Hrun as <-. discriminate Hpayload.
  - destruct (authUser who w) as [[r' | e] w'] eqn:Hh; simpl in Hrun; [| discriminate].
    injection Hrun as ->. run_handler.
  - destruct (listDocuments who w) as [[r' | e] w'] eqn:Hh; simpl in Hrun; [| discriminate].
    injection Hrun as ->. run_handler.
  - destruct (upload_single req) as [[file category] | err] eqn:Hmulter.
    + destruct (uploadDocument env who file category w) as [[r' | e] w'] eqn:Hh;
        simpl in Hrun; [| discriminate].
      injection Hrun as ->. run_handler.
    + simpl in Hrun. unfold errorMiddleware in Hrun.
      repeat (break_match; simplify_eq/=).
  - destruct (downloadDocument who (params_id req) w) as [[r' | e] w'] eqn:Hh;
      simpl in Hrun; [| discriminate].
    injection Hrun as ->. run_handler.
  - destruct (previewDocument who (params_id req) w) as [[r' | e] w'] eqn:Hh;
      simpl in Hrun; [| discriminate].
    injection Hrun as ->. run_handler.
  - destruct (deleteDocumentRoute who (params_id req) w) as [[r' | e] w'] eqn:Hh;
      simpl in Hrun; [| discriminate].
    injection Hrun as ->. run_handler.
Qed.

(** The token an answer hands out is signed for a user of the table. *)
Lemma serve_token env req (w : Portal) token :
  In token (token_of (fst (serve env req w))) ->
  exists claims,
    token = Jwt.sign claims (JWT_SECRET env) /\
    has_user (tok_userId claims) (db (snd (serve env req w))) = true.
Proof.
  unfold token_of, payload_of.
  destruct (fst (serve env req w)) as [r | e] eqn:Hout; [| intros []].
  destruct (payload r) as [| | | token' user | | |] eqn:Hpayload; try (intros []; fail).
  intros [<- | []].
  destruct (session_routes env req w r _ _ Hout Hpayload) as [Hroute | Hroute];
    unfold serve, handle in *; rewrite Hroute in *; unfold answer in *.
  - destruct (signup env req w) as [[r' | e] w'] eqn:Hrun; simpl in *; [| discriminate].
    injection Hout as ->. apply signup_effect in Hrun as (_ & _ & Htoken).
    eapply Htoken; eauto.
  - destruct (login env req w) as [[r' | e] w'] eqn:Hrun; simpl in *; [| discriminate].
    injection Hout as ->. apply login_effect in Hrun as (-> & Htoken).
    eapply Htoken; eauto.
Qed.

Lemma serve_db_effect env req (w : Portal) :
  (forall x, has_user x (db w) = true -> has_user x (db (snd (serve env req w))) = true) /\
  documents_effect env req w.
Proof.
  unfold documents_effect.
  destruct (route req) eqn:Hroute.
  1-3: unfold serve, handle; rewrite Hroute; unfold answer.
  - destruct (signup env req w) as [[r | e] w'] eqn:Hrun;
      apply signup_effect in Hrun as (Hdocs & Hmono & _); simpl; auto.
  - destruct (login env req w) as [[r | e] w'] eqn:Hrun;
      apply login_effect in Hrun as (-> & _); simpl; auto.
  - simpl. auto.
  - destruct (isAuthenticated env req) as [r401 | user] eqn:Hauth.
    { rewrite (serve_unauthenticated _ _ _ _ Hauth) by congruence. simpl. auto. }
    rewrite (serve_guarded _ _ _ _ Hauth), Hroute. unfold answer.
    destruct (authUser user w) as [[r | e] w'] eqn:Hrun;
      apply authUser_effect in Hrun as ->; simpl; auto.
  - destruct (isAuthenticated env req) as [r401 | user] eqn:Hauth.
    { rewrite (serve_unauthenticated _ _ _ _ Hauth) by congruence. simpl. auto. }
    rewrite (serve_guarded _ _ _ _ Hauth), Hroute. unfold answer.
    rewrite listDocuments_spec. simpl. auto.
  - destruct (serve_upload_cases env req w Hroute)
      as [(r & _ & _ & Hdb)
         | (user & file & category & c & Hauth & _ & _ & _ & Hid & Hrun)].
    + rewrite Hdb. auto.
    + rewrite Hrun. simpl. split; [auto |].
      right. left. repeat split; auto.
      eexists. repeat split; [exact Hid |]. unfold requester. rewrite Hauth. reflexivity.
  - destruct (isAuthenticated env req) as [r401 | user] eqn:Hauth.
    { rewrite (serve_unauthenticated _ _ _ _ Hauth) by congruence. simpl. auto. }
    rewrite (serve_guarded _ _ _ _ Hauth), Hroute. unfold answer.
    destruct (downloadDocument_spec user (params_id req) w) as (r & -> & _).
    simpl. auto.
  - destruct (isAuthenticated env req) as [r401 | user] eqn:Hauth.
    { rewrite (serve_unauthenticated _ _ _ _ Hauth) by congruence. simpl. auto. }
    rewrite (serve_guarded _ _ _ _ Hauth), Hroute. unfold answer.
    destruct (previewDocument user (params_id req) w) as [[r | e] w'] eqn:Hrun;
      apply previewDocument_effect in Hrun as ->; simpl; auto.
  - destruct (isAuthenticated env req) as [r401 | user] eqn:Hauth.
    { rewrite (serve_unauthenticated _ _ _ _ Hauth) by congruence. simpl. auto. }
    rewrite (serve_guarded _ _ _ _ Hauth), Hroute. unfold answer.
    destruct (deleteDocumentRoute_spec user (params_id req) w) as (r & w' & -> & Hr).
    simpl.
    destruct (document_with_id (params_id req) (db w)) as [d |];
      [| destruct Hr as [-> ->]; auto].
    destruct (Document.userId d =? claims_sub user); [| destruct Hr as [-> ->]; auto].
    destruct (online (os w)); [| destruct Hr as [-> ->]; auto].
    destruct (objects (os w) !! Document.filepath d); destruct Hr as [-> ->]; simpl; auto.
    split; [auto |]. right. right. auto.
Qed.

Lemma serve_effect env req (w : Portal) :
  (forall x, has_user x (db w) = true -> has_user x (db (snd (serve env req w))) = true) /\
  (forall token, In token (token_of (fst (serve env req w))) ->
     exists claims,
       token = Jwt.sign claims (JWT_SECRET env) /\
       has_user (tok_userId claims) (db (snd (serve env req w))) = true) /\
  documents_effect env req w.
Proof.
  destruct (serve_db_effect env req w) as [Hmono Hdocs].
  split; [exact Hmono |]. split; [apply serve_token | exact Hdocs].
Qed.

(** A listing shows rows of the table only. *)
Lemma listing_rows env req (w : Portal) docs :
  route req = GetDocuments ->
  payload_of (fst (serve env req w)) = Some (JsonDocuments docs) ->
  forall d, In d docs -> In d (documents (db w)).
Proof.
  intros Hroute Hlist d Hin.
  destruct (isAuthenticated env req) as [r401 | user] eqn:Hauth.
  - rewrite (serve_unauthenticated _ _ _ _ Hauth) in Hlist by congruence.
    unfold isAuthenticated in Hauth. repeat (break_match; simplify_eq/=).
  - rewrite (serve_guarded _ _ _ _ Hauth), Hroute in Hlist. unfold answer in Hlist.
    rewrite listDocuments_spec in Hlist. simpl in Hlist. injection Hlist as <-.
    apply filter_In in Hin as [Hin _]. exact Hin.
Qed.

(** A row a request adds has the key the database drew in that run. *)
Lemma serve_new_rows env req (w : Portal) d :
  In d (documents (db (snd (serve env req w)))) ->
  In d (documents (db w)) \/ Document.id d = gen_random_uuid env.
Proof.
  intros Hin.
  destruct (serve_effect env req w) as (_ & _ & Hdocs). unfold documents_effect in Hdocs.
  destruct Hdocs as [Hsame | [(Hroute & _) | (_ & _ & Hdel)]].
  - left. congruence.
  - destruct (serve_upload_cases env req w Hroute)
      as [(r & _ & _ & Hdb) | (user & file & category & c & _ & _ & _ & _ & _ & Hrun)].
    + left. congruence.
    + rewrite Hrun in Hin. simpl in Hin.
      apply in_app_or in Hin as [Hin | [<- | []]]; auto.
  - left. rewrite Hdel in Hin. apply filter_In in Hin as [Hin _]. exact Hin.
Qed.

(** A key no row has stays unused until the database draws it. *)
Lemma run_unused_key x reqs : forall (w : Portal),
  (forall d, In d (documents (db w)) -> Document.id d <> x) ->
  (forall env req, In (env, req) reqs -> gen_random_uuid env <> x) ->
  forall d, In d (documents (db (run reqs w))) -> Document.id d <> x.
Proof.
  induction reqs as [| [env req] reqs IH]; intros w Hrows Hkeys; simpl; [exact Hrows |].
  apply IH.
  - intros d Hin. apply serve_new_rows in Hin as [Hin | ->].
    + apply Hrows, Hin.
    + apply (Hkeys env req). left. reflexivity.
  - intros env' req' Hin. apply (Hkeys env' req'). right. exact Hin.
Qed.

(** C3: when a delete answers 200 the requester owned the document, the
    object under its [filepath] is gone from the bucket and no row of the
    table has its id any more; and no listing shows a document of that id
    afterwards, however many requests come in between, as long as the
    database does not draw the same key for a new row. *)
Theorem delete_removes_row_and_object env req (w : Portal) :
  route req = DeleteDocumentById ->
  status_of (fst (serve env req w)) = Some 200%Z ->
  exists d,
    document_with_id (params_id req) (db w) = Some d /\
    requester env req = Some (Document.userId d) /\
    objects (os (snd (serve env req w))) !! Document.filepath d = None /\
    (forall d', In d' (documents (db (snd (serve env req w)))) ->
                Document.id d' <> params_id req) /\
    (forall reqs env' req' docs,
        (forall e r, In (e, r) reqs -> gen_random_uuid e <> params_id req) ->
        route req' = GetDocuments ->
        payload_of (fst (serve env' req' (run reqs (snd (serve env req w)))))
        = Some (JsonDocuments docs) ->
        forall d', In d' docs -> Document.id d' <> params_id req).
Proof.
  intros Hroute Hstatus.
  assert (Hcore : exists d,
    document_with_id (params_id req) (db w) = Some d /\
    requester env req = Some (Document.userId d) /\
    objects (os (snd (serve env req w))) !! Document.filepath d = None /\
    (forall d', In d' (documents (db (snd (serve env req w)))) ->
                Document.id d' <> params_id req)).
  { destruct (isAuthenticated env req) as [r401 | user] eqn:Hauth.
    { rewrite (serve_unauthenticated _ _ _ _ Hauth) in Hstatus by congruence.
      apply isAuthenticated_answers in Hauth. simpl in Hstatus. congruence. }
    rewrite (serve_guarded _ _ _ _ Hauth), Hroute in *. unfold answer in *.
    destruct (deleteDocumentRoute_spec user (params_id req) w) as (r & w' & Hrun & Hr).
    rewrite Hrun in *. simpl in *.
    destruct (document_with_id (params_id req) (db w)) as [d |] eqn:Hd;
      [| destruct Hr as [-> _]; discriminate].
    destruct (Document.userId d =? claims_sub user) eqn:Hown;
      [| destruct Hr as [-> _]; discriminate].
    destruct (online (os w)); [| destruct Hr as [-> _]; discriminate].
    destruct (objects (os w) !! Document.filepath d); [| destruct Hr as [-> _]; discriminate].
    destruct Hr as [-> ->]. simpl.
    apply String.eqb_eq in Hown.
    exists d. repeat split.
    - unfold requester. rewrite Hauth. congruence.
    - apply lookup_delete_eq.
    - intros d' Hin Heq. apply filter_In in Hin as [_ Hne].
      apply String.eqb_eq in Heq. rewrite Heq in Hne. discriminate. }
  destruct Hcore as (d & Hd & Hreq & Hobj & Hgone).
  exists d. repeat split; auto.
  intros reqs env' req' docs Hkeys Hroute' Hlist d' Hin.
  eapply run_unused_key; [exact Hgone | exact Hkeys |].
  eapply listing_rows; eauto.
Qed.

(** Alice deletes her document. *)
Lemma delete_removes_row_and_object_witness :
  exists d,
    document_with_id "doc-2" (db ex_w3) = Some d /\
    requester ex_env4 (ex_get DeleteDocumentById ex_alice "doc-2")
    = Some (Document.userId d) /\
    objects (os (snd (serve ex_env4 (ex_get DeleteDocumentById ex_alice "doc-2") ex_w3)))
      !! Document.filepath d = None /\
    (forall d', In d' (documents (db (snd (serve ex_env4
                         (ex_get DeleteDocumentById ex_alice "doc-2") ex_w3)))) ->
                Document.id d' <> "doc-2") /\
    (forall reqs env' req' docs,
        (forall e r, In (e, r) reqs -> gen_random_uuid e <> "doc-2") ->
        route req' = GetDocuments ->
        payload_of (fst (serve env' req'
                      (run reqs
                        (snd (serve ex_env4 (ex_get DeleteDocumentById ex_alice "doc-2")
                                    ex_w3)))))
        = Some (JsonDocuments docs) ->
        forall d', In d' docs -> Document.id d' <> "doc-2").
Proof.
  apply (delete_removes_row_and_object ex_env4
           (ex_get DeleteDocumentById ex_alice "doc-2") ex_w3); vm_compute; reflexivity.
Defined.

(** C6: no request changes a field of a row of [documents]. A row of the
    table is still there, as it was, after any request, unless the request
    is a DELETE of its id answered with 200; and a row of the new table is
    a row of the old one, unless an upload answered with 201 made it under
    an id no row had. In particular a row of the new table with the id of
    an old row is an old row. *)
Theorem documents_immutable env req (w : Portal) :
  (forall d, In d (documents (db w)) ->
     In d (documents (db (snd (serve env req w))))
     \/ (route req = DeleteDocumentById /\ Document.id d = params_id req /\
         status_of (fst (serve env req w)) = Some 200%Z)) /\
  (forall d', In d' (documents (db (snd (serve env req w)))) ->
     In d' (documents (db w))
     \/ (route req = PostDocumentsUpload /\
         status_of (fst (serve env req w)) = Some 201%Z /\
         forall d, In d (documents (db w)) -> Document.id d <> Document.id d')) /\
  (forall d d', In d (documents (db w)) ->
     In d' (documents (db (snd (serve env req w)))) ->
     Document.id d' = Document.id d ->
     In d' (documents (db w))).
Proof.
  destruct (serve_effect env req w) as (_ & _ & Hdocs). unfold documents_effect in Hdocs.
  assert (Hnew : forall d', In d' (documents (db (snd (serve env req w)))) ->
     In d' (documents (db w))
     \/ (route req = PostDocumentsUpload /\
         status_of (fst (serve env req w)) = Some 201%Z /\
         forall d, In d (documents (db w)) -> Document.id d <> Document.id d')).
  { intros d' Hin.
    destruct Hdocs as [Hsame | [(Hroute & Hstatus & d & Hadd & Hfresh & _)
                               | (Hroute & Hstatus & Hdel)]].
    - left. congruence.
    - rewrite Hadd in Hin. apply in_app_or in Hin as [Hin | [<- | []]]; [auto |].
      right. repeat split; auto. intros d0 Hin0 Heq.
      unfold has_document in Hfresh.
      assert (Hex : existsb (fun r => Document.id r =? Document.id d) (documents (db w)) = true).
      { apply existsb_exists. exists d0. split; [exact Hin0 |]. by apply String.eqb_eq. }
      congruence.
    - left. rewrite Hdel in Hin. apply filter_In in Hin as [Hin _]. exact Hin. }
  split; [| split; [exact Hnew |]].
  - intros d Hin.
    destruct Hdocs as [Hsame | [(Hroute & Hstatus & d' & Hadd & _)
                               | (Hroute & Hstatus & Hdel)]].
    + left. congruence.
    + left. rewrite Hadd. apply in_or_app. auto.
    + destruct (Document.id d =? params_id req) eqn:Hid.
      * right. apply String.eqb_eq in Hid. auto.
      * left. rewrite Hdel. apply filter_In. rewrite Hid. auto.
  - intros d d' Hin Hin' Heq.
    destruct (Hnew d' Hin') as [Hold | (_ & _ & Hfresh)]; [exact Hold |].
    destruct (Hfresh d Hin). congruence.
Qed.

(** ** Referential integrity *)

(** One request keeps the owners among the users when the user it runs as
    is one of them. *)
Lemma serve_preserves_owners env req (w : Portal) :
  owner_exists (db w) ->
  (forall uid, requester env req = Some uid -> has_user uid (db w) = true) ->
  owner_exists (db (snd (serve env req w))).
Proof.
  intros Howners Hknown.
  destruct (serve_effect env req w) as (Hmono & _ & Hdocs).
  unfold documents_effect in Hdocs.
  intros doc Hin.
  destruct Hdocs as [Hsame | [(Hroute & Hstatus & d & Hadd & _ & Hreq)
                             | (Hroute & Hstatus & Hdel)]].
  - apply Hmono, Howners. congruence.
  - rewrite Hadd in Hin. apply in_app_or in Hin as [Hin | [<- | []]].
    + apply Hmono, Howners, Hin.
    + apply Hmono, Hknown, Hreq.
  - rewrite Hdel in Hin. apply filter_In in Hin as [Hin _]. apply Hmono, Howners, Hin.
Qed.

(** The invariant of the runs that present tokens of the server only. *)
Lemma issued_invariant tokens (w : Portal) :
  issued_run tokens w -> owner_exists (db w) /\ tokens_name_users tokens (db w).
Proof.
  induction 1 as [| env req tokens w Hrun [Howners Htokens] Hissued].
  - split; [intros doc [] | intros token []].
  - destruct (serve_effect env req w) as (Hmono & Hnew & _). split.
    + apply serve_preserves_owners; [exact Howners |].
      intros uid Hreq.
      destruct Hissued as (token & Hin & Hheader); [congruence |].
      apply requester_Some in Hreq as (user & Hauth & <-).
      destruct (isAuthenticated_bearer _ _ _ _ Hauth Hheader) as (claims & Hverify & <-).
      destruct (Htokens token Hin) as (payload & secret & -> & Huser).
      apply verifyToken_sign in Hverify as ->. exact Huser.
    + intros token Hin. apply in_app_or in Hin as [Hin | Hin].
      * destruct (Htokens token Hin) as (payload & secret & -> & Huser). eauto.
      * destruct (Hnew token Hin) as (claims & -> & Huser). eauto.
Qed.

Lemma owner_exists_user d doc :
  owner_exists d -> In doc (documents d) ->
  exists u, In u (users d) /\ User.id u = Document.userId doc.
Proof.
  intros Howners Hin. specialize (Howners doc Hin). unfold has_user in Howners.
  apply existsb_exists in Howners as (u & Hu & Heq). apply String.eqb_eq in Heq. eauto.
Qed.

(** C7, as the code has it. In every state of a run in which the requests
    get through [isAuthenticated] only with tokens the server handed out,
    the [userId] of every document is the [id] of a row of [users]; and a
    request keeps it so in any state where it holds, provided the user it
    runs as has a row. Nothing in the routes checks that she has. *)
Theorem referential_integrity :
  (forall tokens (w : Portal),
      issued_run tokens w ->
      forall doc, In doc (documents (db w)) ->
      exists u, In u (users (db w)) /\ User.id u = Document.userId doc) /\
  (forall env req (w : Portal),
      owner_exists (db w) ->
      (forall uid, requester env req = Some uid -> has_user uid (db w) = true) ->
      forall doc, In doc (documents (db (snd (serve env req w)))) ->
      exists u, In u (users (db (snd (serve env req w)))) /\
                User.id u = Document.userId doc).
Proof.
  split.
  - intros tokens w Hrun doc Hin.
    destruct (issued_invariant tokens w Hrun) as [Howners _].
    eapply owner_exists_user; eauto.
  - intros env req w Howners Hknown doc Hin.
    eapply owner_exists_user; [| exact Hin].
    apply serve_preserves_owners; assumption.
Qed.

Lemma ex_w3_reachable : reachable ex_w3.
Proof.
  unfold ex_w3, ex_w2, ex_w1.
  apply reachable_step, reachable_step, reachable_step. exact reachable_init.
Qed.

Lemma ex_w3_issued : exists tokens, issued_run tokens ex_w3.
Proof.
  eexists. unfold ex_w3, ex_w2, ex_w1.
  apply issued_step; [apply issued_step; [apply issued_step; [apply issued_init |] |] |].
  - intros Hreq. destruct Hreq. reflexivity.
  - intros _. eexists. split; [| reflexivity]. vm_compute. left. reflexivity.
  - intros Hreq. destruct Hreq. reflexivity.
Qed.

Lemma referential_integrity_witness :
  exists u, In u (users (db ex_w3)) /\ User.id u = "user-1".
Proof.
  destruct ex_w3_issued as [tokens Hrun].
  apply (proj1 referential_integrity tokens ex_w3 Hrun
           (Document.mk "doc-2" "obj-2.pdf" "lab results.pdf" "uploads/obj-2.pdf" 2048
                        "application/pdf" "referral" "user-1" 200)).
  vm_compute. left. reflexivity.
Defined.

(** C7 as stated fails: the portal reaches a state with a document whose
    [userId] is the id of no user. The first request is an upload with a
    token signed elsewhere under the secret of the server (here the one
    the source falls back to) for the user id [ghost]: [jwt.verify] accepts
    it, [isAuthenticated] does not look the user up, and the row is
    inserted, no foreign key being declared. *)
Lemma referential_integrity_counterexample :
  reachable ex_w_ghost /\
  documents (db ex_w_ghost)
  = [Document.mk "doc-2" "obj-2.pdf" "lab results.pdf" "uploads/obj-2.pdf" 2048
                 "application/pdf" "other" "ghost" 200] /\
  users (db ex_w_ghost) = [].
Proof.
  split; [apply reachable_step, reachable_init |].
  split; vm_compute; reflexivity.
Qed.




(** * More properties of the application *)

(** ** The guarded routes, whatever the stores do *)

Section MoreRoutes.
Context {DB OS File : Type} `{!IStorage DB} `{!ObjectStorage OS File}.
Local Abbreviation W := (World DB OS).

(** X1: the preview route guards a document as the download route does.
    It answers 404 when [getDocument] finds no row, 403 when the row
    belongs to someone else, and sends bytes only for a row of the
    requester: then they come from the object under the row's [filepath],
    with status 200, [Content-Type: application/pdf] and
    [Content-Disposition: inline]; it never writes. *)
Theorem preview_access_control user id (w : W) :
  (getDocument id (db w) = Ok None ->
   previewDocument user id w = (Ok (json_message 404 "Document not found" res0), w)) /\
  (forall d, getDocument id (db w) = Ok (Some d) ->
             Document.userId d <> claims_sub user ->
             previewDocument user id w = (Ok (json_message 403 "Access denied" res0), w)) /\
  (forall r w' bytes complete,
      previewDocument user id w = (Ok r, w') ->
      payload r = Stream bytes complete ->
      w' = w /\
      exists d file,
        getDocument id (db w) = Ok (Some d) /\
        Document.userId d = claims_sub user /\
        getObjectEntityFile (Document.filepath d) (os w) = Ok file /\
        createReadStream file (os w)
        = (if complete then StreamEnd bytes else StreamErrorLate bytes) /\
        status r = 200%Z /\
        getHeader "Content-Type" r = Some "application/pdf" /\
        getHeader "Content-Disposition" r = Some "inline").
Proof.
  split; [| split].
  - intros Hget. unfold previewDocument. unfold_m. rewrite Hget. reflexivity.
  - intros d Hget Hother. unfold previewDocument. unfold_m. rewrite Hget.
    apply String.eqb_neq in Hother. rewrite Hother. reflexivity.
  - intros r w' bytes complete Hrun Hpayload. run_handler;
      match goal with H : negb (_ =? _) = false |- _ =>
        apply negb_false_iff, String.eqb_eq in H end;
      (split; [reflexivity |]); do 2 eexists; repeat split; eauto.
Qed.

(** X2: for the same requester, id and state, download and preview give
    the same status and the same bytes; when bytes go out the two differ
    in the [Content-Disposition] header, and apart from a 200 and a 500
    the answers are the same. Neither writes. *)
Theorem download_preview_agree user id (w : W) :
  exists r1 r2,
    downloadDocument user id w = (Ok r1, w) /\
    previewDocument user id w = (Ok r2, w) /\
    status r1 = status r2 /\
    (forall bytes complete,
        payload r1 = Stream bytes complete <-> payload r2 = Stream bytes complete) /\
    (status r1 <> 500%Z -> status r1 <> 200%Z -> r1 = r2) /\
    (forall bytes complete,
        payload r1 = Stream bytes complete ->
        getHeader "Content-Disposition" r1 <> getHeader "Content-Disposition" r2).
Proof.
  assert (Hinline : forall d, Some (attachment d) <> Some "inline").
  { intros d. discriminate. }
  unfold downloadDocument, previewDocument, pipe, file_catch. unfold_m.
  destruct (getDocument id (db w)) as [[d |] | e]; simpl.
  - destruct (negb (Document.userId d =? claims_sub user)); simpl.
    + do 2 eexists. repeat split; intros; simpl in *; congruence.
    + destruct (getObjectEntityFile (Document.filepath d) (os w)) as [file | e]; simpl.
      * destruct (createReadStream file (os w)); simpl;
          do 2 eexists; (repeat split); intros; simpl in *; try congruence; apply Hinline.
      * destruct e; simpl; do 2 eexists; (repeat split); intros; simpl in *; congruence.
  - do 2 eexists. repeat split; intros; simpl in *; congruence.
  - destruct e; simpl; do 2 eexists; (repeat split); intros; simpl in *; congruence.
Qed.

Lemma authUser_no_write user (w w' : W) o : authUser user w = (o, w') -> w' = w.
Proof. intros Hrun. run_handler; reflexivity. Qed.

Lemma listDocuments_no_write user (w w' : W) o : listDocuments user w = (o, w') -> w' = w.
Proof. intros Hrun. run_handler; reflexivity. Qed.

Lemma downloadDocument_no_write user id (w w' : W) o :
  downloadDocument user id w = (o, w') -> w' = w.
Proof. intros Hrun. run_handler; reflexivity. Qed.

Lemma previewDocument_no_write user id (w w' : W) o :
  previewDocument user id w = (o, w') -> w' = w.
Proof. intros Hrun. run_handler; reflexivity. Qed.

(** X3: a GET route never writes: after logout, the user route, the
    listing, a download or a preview, the database and the object store
    are what they were, whatever the answer. Logout in particular changes
    nothing: a token is verified from its signature alone, and stays valid
    after it. *)
Theorem get_routes_never_write env req (w : W) :
  is_get (route req) = true -> snd (handle env req w) = w.
Proof.
  unfold handle, authenticated, answer. intros Hget.
  destruct (route req); try discriminate Hget; try reflexivity;
    destruct (isAuthenticated env req) as [r | user]; try reflexivity.
  - destruct (authUser user w) as [[r | e] w'] eqn:Hrun;
      apply authUser_no_write in Hrun; exact Hrun.
  - destruct (listDocuments user w) as [[r | e] w'] eqn:Hrun;
      apply listDocuments_no_write in Hrun; exact Hrun.
  - destruct (downloadDocument user (params_id req) w) as [[r | e] w'] eqn:Hrun;
      apply downloadDocument_no_write in Hrun; exact Hrun.
  - destruct (previewDocument user (params_id req) w) as [[r | e] w'] eqn:Hrun;
      apply previewDocument_no_write in Hrun; exact Hrun.
Qed.

(** X4: a guarded route answers a request without a usable token with
    401 and does nothing else. No [Authorization] header, or one that does
    not start with [Bearer ], gets [Unauthorized]; a bearer token that
    does not verify gets [Invalid or expired token]. *)
Theorem guarded_routes_unauthorized env req (w : W) :
  guarded (route req) = true ->
  ((authorization req = None
    \/ exists h, authorization req = Some h /\ Js.startsWith h "Bearer " = false) ->
   handle env req w = (Respond (json_message 401 "Unauthorized" res0), w)) /\
  (forall token,
      authorization req = bearer token -> verifyToken env token = None ->
      handle env req w = (Respond (json_message 401 "Invalid or expired token" res0), w)).
Proof.
  intros Hguard.
  assert (Hturn : forall r, isAuthenticated env req = Answered r ->
                            handle env req w = (Respond r, w)).
  { intros r Hauth. unfold handle, authenticated. rewrite Hauth.
    destruct (route req); try discriminate Hguard; reflexivity. }
  split.
  - intros Hheader. apply Hturn. unfold isAuthenticated.
    destruct Hheader as [-> | (h & -> & Hstart)]; [reflexivity |].
    rewrite Hstart, orb_true_r. reflexivity.
  - intros token Hheader Hverify. apply Hturn. unfold isAuthenticated, bearer in *.
    rewrite Hheader. destruct (bearer_token token) as (-> & -> & ->).
    simpl. rewrite Hverify. reflexivity.
Qed.

(** X5: [isOptionallyAuthenticated] attaches a user exactly when
    [isAuthenticated] lets the request through, and then the same one. *)
Theorem optional_agrees_with_required env req :
  match isAuthenticated env req with
  | Continue user => isOptionallyAuthenticated env req = Some user
  | Answered r => isOptionallyAuthenticated env req = None /\ status r = 401%Z
  end.
Proof.
  unfold isAuthenticated, isOptionallyAuthenticated.
  destruct (authorization req) as [h |]; [| split; reflexivity].
  destruct (Js.truthy h); destruct (Js.startsWith h "Bearer "); simpl;
    try (split; reflexivity).
  destruct (verifyToken env (Js.substring_from 7 h)); [reflexivity | split; reflexivity].
Qed.

(** X6: a token lives seven days. Under the secret it was signed with,
    [verifyToken] gives back the user id and the email [generateToken]
    signed as long as the clock is less than 604800 seconds past the
    signing, and nothing from then on; under another secret it gives
    nothing. *)
Theorem token_lifetime env env' userId email :
  verifyToken env' (generateToken env userId email)
  = if (JWT_SECRET env =? JWT_SECRET env') && (now env' <? now env + 604800)%N
    then Some (mkToken userId email (now env) (now env + 604800))
    else None.
Proof.
  unfold verifyToken, generateToken, Jwt.verify. rewrite decode_sign.
  destruct (JWT_SECRET env =? JWT_SECRET env'); reflexivity.
Qed.

(** X7: a delete that is refused changes nothing. When no row has the id
    (404), when the row belongs to someone else (403), and when removing
    the object throws (500), the database and the object store are as they
    were: the row is still there. *)
Theorem delete_refused_changes_nothing user id (w : W) :
  (getDocument id (db w) = Ok None ->
   deleteDocumentRoute user id w = (Ok (json_message 404 "Document not found" res0), w)) /\
  (forall d, getDocument id (db w) = Ok (Some d) ->
             Document.userId d <> claims_sub user ->
             deleteDocumentRoute user id w = (Ok (json_message 403 "Access denied" res0), w)) /\
  (forall d e, getDocument id (db w) = Ok (Some d) ->
               Document.userId d = claims_sub user ->
               deleteObject (Document.filepath d) (os w) = Throw e ->
               deleteDocumentRoute user id w
               = (Ok (json_message 500 "Failed to delete document" res0), w)).
Proof.
  unfold deleteDocumentRoute. unfold_m. repeat split.
  - intros Hget. rewrite Hget. reflexivity.
  - intros d Hget Hother. rewrite Hget. apply String.eqb_neq in Hother.
    rewrite Hother. reflexivity.
  - intros d e Hget Hown Hdel. rewrite Hget. apply String.eqb_eq in Hown.
    rewrite Hown. simpl. rewrite Hdel. reflexivity.
Qed.

(** X8: a delete has no rollback. The object is removed first; when the
    statement that removes the row then throws, or removes no row, the
    answer is 500, the object stays removed and the database is what the
    statement left. Only a removed row gives 200. *)
Theorem delete_without_rollback user id (w : W) d o :
  getDocument id (db w) = Ok (Some d) ->
  Document.userId d = claims_sub user ->
  deleteObject (Document.filepath d) (os w) = Ok o ->
  deleteDocumentRoute user id w
  = match deleteDocument id (db w) with
    | Throw _ =>
        (Ok (json_message 500 "Failed to delete document" res0),
         mkWorld (db w) o)
    | Ok (false, db') =>
        (Ok (json_message 500 "Failed to delete document" res0), mkWorld db' o)
    | Ok (true, db') =>
        (Ok (json_message 200 "Document deleted successfully" res0),
         mkWorld db' o)
    end.
Proof.
  intros Hget Hown Hdel. unfold deleteDocumentRoute. unfold_m.
  rewrite Hget. apply String.eqb_eq in Hown. rewrite Hown. simpl. rewrite Hdel. simpl.
  destruct (deleteDocument id (db w)) as [[[|] db'] | e]; reflexivity.
Qed.

(** X9: an upload has no rollback either. Once the bytes are written and
    the ACL is set, a category that is not a string, or an insert that
    throws, ends the request with 500: no row is written, and the object
    stays in the store. *)
Theorem upload_leaves_object env user file category (w : W) o1 f o2 :
  uploadBuffer (buffer file) ("uploads/" ++ randomUUID env ++ ".pdf") PDF (os w) = Ok o1 ->
  getObjectEntityFile ("uploads/" ++ randomUUID env ++ ".pdf") o1 = Ok f ->
  setObjectAclPolicy f (mkAcl (claims_sub user) "private") o1 = Ok o2 ->
  (category_or_other category = BComposite
   \/ exists c e,
        category_or_other category = BString c /\
        createDocument (gen_random_uuid env) (now env)
          (InsertDocument.mk (randomUUID env ++ ".pdf") (Js.slice0 255 (originalname file))
             ("uploads/" ++ randomUUID env ++ ".pdf") (byteLength (buffer file))
             (Some PDF) (Some c) (claims_sub user)) (db w) = Throw e) ->
  uploadDocument env user (Some file) category w
  = (Ok (json_message 500 "Failed to upload document" res0), mkWorld (db w) o2).
Proof.
  intros Hwrite Hfile Hacl Hfail. unfold uploadDocument, insertDocumentSchema_parse. unfold_m.
  rewrite Hwrite. simpl. rewrite Hfile. simpl. rewrite Hacl. simpl.
  destruct Hfail as [-> | (c & e & -> & Hinsert)]; [reflexivity |].
  simpl. rewrite Hinsert. reflexivity.
Qed.

(** X10: signup and login ask for both credentials before they touch the
    database: a missing or empty email or password gets 400 with
    [Email and password required], and nothing is read or written. *)
Theorem credentials_required env req (w : W) :
  (cred_email (body req) = None \/ cred_email (body req) = Some EmptyString
   \/ cred_password (body req) = None \/ cred_password (body req) = Some EmptyString) ->
  signup env req w = (Ok (json_message 400 "Email and password required" res0), w) /\
  login env req w = (Ok (json_message 400 "Email and password required" res0), w).
Proof.
  intros Hmissing. unfold signup, login. unfold_m.
  destruct (cred_email (body req)) as [email |], (cred_password (body req)) as [password |];
    try (split; reflexivity).
  destruct Hmissing as [[=] | [[= ->] | [[=] | [= ->]]]]; simpl;
    rewrite ?orb_true_r; split; reflexivity.
Qed.

(** X11: a login that fails on the credentials tells nothing more. An
    unknown email, a user without a password hash and a wrong password all
    get the same answer, 401 with [Invalid credentials], and sign no
    token. *)
Theorem login_failures_look_alike env req (w w' : W) r :
  login env req w = (Ok r, w') ->
  status r = 401%Z ->
  r = json_message 401 "Invalid credentials" res0 /\ w' = w.
Proof.
  intros Hrun Hstatus. run_handler; try discriminate Hstatus; split; reflexivity.
Qed.

End MoreRoutes.

(** ** The same, on the small run *)

Lemma get_routes_never_write_witness :
  snd (serve ex_env4 (ex_get GetDocumentDownload ex_alice "doc-2") ex_w3) = ex_w3.
Proof.
  apply (get_routes_never_write ex_env4 (ex_get GetDocumentDownload ex_alice "doc-2") ex_w3).
  reflexivity.
Defined.

Lemma guarded_routes_unauthorized_witness :
  serve ex_env4 (ex_upload None [] ex_text) ex_w3
  = (Respond (json_message 401 "Unauthorized" res0), ex_w3).
Proof.
  apply (proj1 (guarded_routes_unauthorized ex_env4 (ex_upload None [] ex_text) ex_w3
                  eq_refl)).
  left. reflexivity.
Defined.

Lemma delete_without_rollback_witness :
  deleteDocumentRoute ex_alice_user "doc-2" ex_w3_read_only
  = (Ok (json_message 500 "Failed to delete document" res0),
     mkWorld (mkReadOnly (db ex_w3))
             (mkBucket true (delete "uploads/obj-2.pdf" (objects (os ex_w3))))).
Proof.
  refine (delete_without_rollback ex_alice_user "doc-2" ex_w3_read_only
            (Document.mk "doc-2" "obj-2.pdf" "lab results.pdf" "uploads/obj-2.pdf" 2048
                         "application/pdf" "referral" "user-1" 200)
            (mkBucket true (delete "uploads/obj-2.pdf" (objects (os ex_w3)))) _ _ _);
    vm_compute; reflexivity.
Defined.

Lemma upload_leaves_object_witness :
  uploadDocument ex_env4 ex_alice_user (Some ex_pdf) (Some BComposite) ex_w3
  = (Ok (json_message 500 "Failed to upload document" res0),
     mkWorld (db ex_w3)
             (mkBucket true (<["uploads/obj-4.pdf" := uploaded_object "user-1" ex_pdf]>
                               (objects (os ex_w3))))).
Proof.
  refine (upload_leaves_object ex_env4 ex_alice_user ex_pdf (Some BComposite) ex_w3
            (mkBucket true (<["uploads/obj-4.pdf" := mkStoredObject (buffer ex_pdf) PDF None]>
                              (objects (os ex_w3))))
            "uploads/obj-4.pdf"
            (mkBucket true (<["uploads/obj-4.pdf" := uploaded_object "user-1" ex_pdf]>
                              (objects (os ex_w3))))
            _ _ _ _);
    try (vm_compute; reflexivity).
  left. reflexivity.
Defined.

Lemma credentials_required_witness :
  signup ex_env1 (mkRequest PostSignup None EmptyString
                    (mkCredentials (Some "alice@example.org") (Some EmptyString) None None)
                    None) portal0
  = (Ok (json_message 400 "Email and password required" res0), portal0).
Proof.
  apply (proj1 (credentials_required ex_env1
                  (mkRequest PostSignup None EmptyString
                     (mkCredentials (Some "alice@example.org") (Some EmptyString) None None)
                     None) portal0
                  ltac:(right; right; right; reflexivity))).
Defined.

Lemma login_failures_look_alike_witness :
  json_message 401 "Invalid credentials" res0 = json_message 401 "Invalid credentials" res0
  /\ ex_w3 = ex_w3.
Proof.
  apply (login_failures_look_alike ex_env4 (ex_login "alice@example.org" "not-pw-a")
           ex_w3 ex_w3 (json_message 401 "Invalid credentials" res0));
    vm_compute; reflexivity.
Defined.

(** ** Signing up, then using the account *)

Lemma find_app_new {A} (p : A -> bool) (l : list A) (x : A) :
  List.find p l = None -> p x = true -> List.find p (l ++ [x]) = Some x.
Proof.
  induction l as [| a l IH]; simpl; intros Hnone Hx.
  - by rewrite Hx.
  - destruct (p a); [discriminate | auto].
Qed.

Lemma has_user_find id d :
  has_user id d = false -> List.find (fun u => User.id u =? id) (users d) = None.
Proof.
  unfold has_user. induction (users d) as [| u l IH]; simpl; [reflexivity |].
  destruct (User.id u =? id); [discriminate | exact IH].
Qed.

Lemma no_email_conflict id email l :
  List.find (fun u => same_email (User.email u) (Some email)) l = None ->
  existsb (fun r => negb (User.id r =? id) && same_email (User.email r) (Some email)) l
  = false.
Proof.
  induction l as [| u l IH]; simpl; [reflexivity |].
  destruct (same_email (User.email u) (Some email)); [discriminate |].
  intros Hnone. rewrite andb_false_r. simpl. apply IH, Hnone.
Qed.

(** The row a signup inserts. *)
Lemma signup_accepted env req (w : Portal) email password :
  cred_email (body req) = Some email ->
  cred_password (body req) = Some password ->
  email <> EmptyString -> password <> EmptyString ->
  db_getUserByEmail email (db w) = Ok None ->
  has_user (gen_random_uuid env) (db w) = false ->
  signup env req w
  = (Ok (json (JsonSession (generateToken env (gen_random_uuid env) email)
                 (User.mk (gen_random_uuid env) (Some email)
                          (Some (default EmptyString (cred_firstName (body req))))
                          (Some (default EmptyString (cred_lastName (body req))))
                          None (Some (bcrypt_hash password))
                          (Some (now env)) (Some (now env))))
              (set_status 201 res0)),
     mkWorld
       (mkDatabase
          (users (db w) ++
           [User.mk (gen_random_uuid env) (Some email)
                    (Some (default EmptyString (cred_firstName (body req))))
                    (Some (default EmptyString (cred_lastName (body req))))
                    None (Some (bcrypt_hash password))
                    (Some (now env)) (Some (now env))])
          (documents (db w)))
       (os w)).
Proof.
  intros Hemail Hpassword He Hp Hfree Hkey.
  unfold signup. unfold_m. rewrite Hemail, Hpassword.
  rewrite (truthy_nonempty _ He), (truthy_nonempty _ Hp).
  unfold db_getUserByEmail in Hfree. injection Hfree as Hfree.
  cbn [negb orb getUserByEmail upsertUser DatabaseStorage db]. unfold db_getUserByEmail.
  rewrite Hfree. cbn [db]. unfold db_upsertUser. cbn [UpsertUser.id UpsertUser.email default].
  rewrite (no_email_conflict _ _ _ Hfree), (has_user_find _ _ Hkey). reflexivity.
Qed.

(** The user a signup creates, and the state it leaves. *)
Lemma serve_signup_accepted env req (w : Portal) email password :
  route req = PostSignup ->
  cred_email (body req) = Some email ->
  cred_password (body req) = Some password ->
  email <> EmptyString -> password <> EmptyString ->
  db_getUserByEmail email (db w) = Ok None ->
  has_user (gen_random_uuid env) (db w) = false ->
  exists user,
    user = User.mk (gen_random_uuid env) (Some email)
                   (Some (default EmptyString (cred_firstName (body req))))
                   (Some (default EmptyString (cred_lastName (body req))))
                   None (Some (bcrypt_hash password)) (Some (now env)) (Some (now env)) /\
    serve env req w
    = (Respond (json (JsonSession (generateToken env (gen_random_uuid env) email) user)
                     (set_status 201 res0)),
       mkWorld (mkDatabase (users (db w) ++ [user]) (documents (db w))) (os w)).
Proof.
  intros Hroute Hemail Hpassword He Hp Hfree Hkey.
  eexists. split; [reflexivity |].
  unfold serve, handle. rewrite Hroute. unfold answer.
  rewrite (signup_accepted _ _ _ _ _ Hemail Hpassword He Hp Hfree Hkey). reflexivity.
Qed.


(** Who sends a token [generateToken] signed, under the same secret and
    before it expires, runs as the user it was signed for. *)
Lemma isAuthenticated_new_token env env' req' userId email :
  authorization req' = bearer (generateToken env userId email) ->
  JWT_SECRET env' = JWT_SECRET env ->
  (now env' < now env + 604800)%N ->
  isAuthenticated env' req' = Continue (mkReqUser userId email userId).
Proof.
  intros Hheader Hsecret Hnow. unfold bearer in Hheader. unfold isAuthenticated.
  rewrite Hheader.
  destruct (bearer_token (generateToken env userId email)) as (-> & -> & ->). simpl.
  rewrite (verifyToken_generateToken _ _ _ _ Hsecret).
  apply N.ltb_lt in Hnow. change JWT_EXPIRY with 604800%N. rewrite Hnow.
  reflexivity.
Qed.

(** X12: a signup opens the account it answers with. When the email is
    new and the database draws a new key, signup answers 201 with a token
    and the new user (the email as given, the password as its hash), and
    until 604800 seconds later that token, sent to [/api/auth/user] while
    the server runs under the same secret, gets this same user back and
    changes nothing. *)
Theorem signup_then_user env env' req req' (w : Portal) email password :
  route req = PostSignup ->
  cred_email (body req) = Some email ->
  cred_password (body req) = Some password ->
  email <> EmptyString -> password <> EmptyString ->
  db_getUserByEmail email (db w) = Ok None ->
  has_user (gen_random_uuid env) (db w) = false ->
  route req' = GetAuthUser ->
  authorization req' = bearer (generateToken env (gen_random_uuid env) email) ->
  JWT_SECRET env' = JWT_SECRET env ->
  (now env' < now env + 604800)%N ->
  exists user,
    fst (serve env req w)
    = Respond (json (JsonSession (generateToken env (gen_random_uuid env) email) user)
                    (set_status 201 res0)) /\
    User.id user = gen_random_uuid env /\
    User.email user = Some email /\
    User.passwordHash user = Some (bcrypt_hash password) /\
    serve env' req' (snd (serve env req w))
    = (Respond (json (JsonUser (Some user)) res0), snd (serve env req w)).
Proof.
  intros Hroute Hemail Hpassword He Hp Hfree Hkey Hroute' Hheader Hsecret Hnow.
  destruct (serve_signup_accepted _ _ _ _ _ Hroute Hemail Hpassword He Hp Hfree Hkey)
    as (user & Huser & ->). cbn [fst snd].
  exists user. split; [reflexivity |]. do 3 (split; [by rewrite Huser |]).
  rewrite (serve_guarded env' req' _ _
             (isAuthenticated_new_token env env' req' _ _ Hheader Hsecret Hnow)).
  rewrite Hroute'. unfold answer, authUser. unfold_m.
  cbn [claims_sub getUser DatabaseStorage db users]. unfold db_getUser. cbn [users].
  rewrite (find_app_new _ _ _ (has_user_find _ _ Hkey))
    by (rewrite Huser; apply String.eqb_refl).
  reflexivity.
Qed.

Lemma signup_then_user_witness :
  exists user,
    fst (serve ex_env3 (ex_signup "bob@example.org" "pw-b") ex_w2)
    = Respond (json (JsonSession (generateToken ex_env3 (gen_random_uuid ex_env3)
                                                "bob@example.org") user)
                    (set_status 201 res0)) /\
    User.id user = gen_random_uuid ex_env3 /\
    User.email user = Some "bob@example.org" /\
    User.passwordHash user = Some (bcrypt_hash "pw-b") /\
    serve ex_env4 (ex_get GetAuthUser ex_bob EmptyString)
          (snd (serve ex_env3 (ex_signup "bob@example.org" "pw-b") ex_w2))
    = (Respond (json (JsonUser (Some user)) res0),
       snd (serve ex_env3 (ex_signup "bob@example.org" "pw-b") ex_w2)).
Proof.
  apply (signup_then_user ex_env3 ex_env4 (ex_signup "bob@example.org" "pw-b")
           (ex_get GetAuthUser ex_bob EmptyString) ex_w2 "bob@example.org" "pw-b").
  - reflexivity.
  - reflexivity.
  - reflexivity.
  - discriminate.
  - discriminate.
  - vm_compute. reflexivity.
  - vm_compute. reflexivity.
  - reflexivity.
  - reflexivity.
  - reflexivity.
  - vm_compute. reflexivity.
Defined.



(** ** Signing in, and the upload form *)

Section MoreForms.
Context {DB OS File : Type} `{!IStorage DB} `{!ObjectStorage OS File}.
Local Abbreviation W := (World DB OS).

(** X14: a login gives a session only for the password of the account.
    When the answer carries a token, the request gave an email and a
    password, [getUserByEmail] found the user of that email, and
    [bcrypt.compare] matched the password against the stored hash; the
    answer is 200 with the token just signed and the row as stored, its
    password hash included, and nothing is written. *)
Theorem login_session_needs_password env req (w w' : W) r token user :
  login env req w = (Ok r, w') ->
  payload r = JsonSession token user ->
  exists email password hash,
    cred_email (body req) = Some email /\
    cred_password (body req) = Some password /\
    getUserByEmail email (db w) = Ok (Some user) /\
    User.passwordHash user = Some hash /\
    bcrypt_compare password hash = true /\
    r = json (JsonSession (generateToken env (User.id user)
                                          (default EmptyString (User.email user))) user)
             res0 /\
    w' = w.
Proof.
  intros Hrun Hpayload. run_handler.
  match goal with H : negb (bcrypt_compare _ _) = false |- _ =>
    apply negb_false_iff in H end.
  do 3 eexists. repeat split; eauto.
Qed.

(** X15: signup and login write only when they succeed. Whatever the
    stores do, an answer of signup other than 201, and an answer of login
    other than 200, leaves the database and the object store as they
    were: no user row comes from a refused or failed request. *)
Theorem auth_writes_only_on_success env req (w w' : W) r :
  (signup env req w = (Ok r, w') -> status r <> 201%Z -> w' = w) /\
  (login env req w = (Ok r, w') -> status r <> 200%Z -> w' = w).
Proof.
  split; intros Hrun Hstatus; run_handler; first [reflexivity | by destruct Hstatus].
Qed.

Lemma multer_files_unnamed files : forall n acc,
  Forall (fun part => originalname part = EmptyString) files ->
  multer_files n files acc = Ok acc.
Proof.
  induction files as [| part files IH]; intros n acc Hall; [reflexivity |].
  inversion Hall as [| ? ? Hpart Hfiles]; subst. simpl. rewrite Hpart. simpl.
  apply IH, Hfiles.
Qed.

Lemma unnamed_not_named files :
  Forall (fun part => originalname part = EmptyString) files ->
  forall part, In part files -> Js.truthy (originalname part) = false.
Proof.
  intros Hall part Hin. rewrite List.Forall_forall in Hall. rewrite (Hall part Hin).
  reflexivity.
Qed.

(** X16: an upload without a file is refused before anything is stored.
    When the request of an authenticated user is not multipart, or no
    file part of its form has a filename, the answer is 400 and nothing
    has changed: with [No file uploaded], unless a text field of the form
    reaches the field limit, and then with multer's
    [Field value too long]. *)
Theorem upload_needs_a_file env req (w : W) user :
  route req = PostDocumentsUpload ->
  isAuthenticated env req = Continue user ->
  (multipart req = None ->
   handle env req w = (Respond (json_message 400 "No file uploaded" res0), w)) /\
  (forall form,
      multipart req = Some form ->
      Forall (fun part => originalname part = EmptyString) (form_files form) ->
      handle env req w
      = (Respond (json_message 400
                    (if fields_within_limit form
                     then "No file uploaded" else "Field value too long") res0), w)).
Proof.
  intros Hroute Hauth. unfold handle, authenticated. rewrite Hroute, Hauth. split.
  - intros Hform. unfold upload_single. rewrite Hform. reflexivity.
  - intros form Hform Hall.
    destruct (fields_within_limit form) eqn:Hfields.
    + rewrite (upload_single_fields _ _ Hform Hfields).
      rewrite (multer_files_unnamed _ _ _ Hall). reflexivity.
    + unfold upload_single. rewrite Hform.
      rewrite (multer_parts_field_too_long _ 1 None None Hfields); [reflexivity | |].
      * change (part_files (form_parts form)) with (form_files form).
        assert (Hnone : List.filter (fun part => Js.truthy (originalname part))
                                    (form_files form) = []).
        { induction (form_files form) as [| part files IH]; [reflexivity |].
          inversion Hall as [| ? ? Hpart Hfiles]; subst. cbn [List.filter].
          rewrite Hpart. cbn. apply IH, Hfiles. }
        rewrite Hnone. cbn. lia.
      * intros part Hin Hnamed.
        rewrite (unnamed_not_named _ Hall part Hin) in Hnamed. discriminate Hnamed.
Qed.

(** X17: [upload.single] takes one file. A form with two named file
    parts is answered with 400 and nothing is stored, whatever the parts
    are; when the text fields are short of the field limit and the first
    part would have been accepted on its own (a PDF of fewer than 10485760
    bytes in the field [file]), the message is multer's
    [Unexpected field]. *)
Theorem upload_takes_one_file env req (w : W) user form part1 part2 parts :
  route req = PostDocumentsUpload ->
  isAuthenticated env req = Continue user ->
  multipart req = Some form ->
  form_files form = part1 :: part2 :: parts ->
  originalname part1 <> EmptyString ->
  originalname part2 <> EmptyString ->
  exists message,
    handle env req w = (Respond (json_message 400 message res0), w) /\
    (fields_within_limit form = true ->
     fieldname part1 = "file" -> fileFilter part1 = Ok true ->
     (byteLength (buffer part1) < fileSize)%N ->
     message = "Unexpected field").
Proof.
  intros Hroute Hauth Hform Hfiles Hname1 Hname2.
  unfold handle, authenticated. rewrite Hroute, Hauth.
  destruct (fields_within_limit form) eqn:Hfields.
  2:{ destruct (multer_parts_field_error (form_parts form) 1 None None Hfields)
        as [err Herr].
      assert (Hmulter : upload_single req = Throw err)
        by (unfold upload_single; rewrite Hform; exact Herr).
      rewrite Hmulter.
      destruct (upload_single_error _ _ Hmulter) as [-> | [-> | [-> | ->]]];
        eexists; (split; [reflexivity |]); intros [=]. }
  rewrite (upload_single_fields _ _ Hform Hfields), Hfiles.
  cbn [multer_files]. rewrite (truthy_nonempty _ Hname1), (truthy_nonempty _ Hname2).
  cbn [negb Nat.eqb Nat.sub orb].
  destruct (fieldname part1 =? "file") eqn:Hfield; cbn [negb orb].
  2:{ eexists. split; [reflexivity |]. intros _ Hf. apply String.eqb_neq in Hfield.
      contradiction. }
  destruct (fileFilter_cases part1) as [Hfilter | Hfilter]; rewrite Hfilter.
  2:{ eexists. split; [reflexivity |]. intros _ _ [=]. }
  destruct (fileSize <=? byteLength (buffer part1))%N eqn:Hsize.
  { eexists. split; [reflexivity |]. intros _ _ _ Hlt. apply N.leb_le in Hsize. lia. }
  rewrite orb_true_r. eexists. split; [reflexivity |]. reflexivity.
Qed.

End MoreForms.

Lemma login_session_needs_password_witness :
  exists email password hash,
    cred_email (body (ex_login "alice@example.org" "pw-a")) = Some email /\
    cred_password (body (ex_login "alice@example.org" "pw-a")) = Some password /\
    getUserByEmail email (db ex_w3) = Ok (Some ex_alice_row) /\
    User.passwordHash ex_alice_row = Some hash /\
    bcrypt_compare password hash = true /\
    json (JsonSession (generateToken ex_env4 "user-1" "alice@example.org") ex_alice_row) res0
    = json (JsonSession (generateToken ex_env4 (User.id ex_alice_row)
                                       (default EmptyString (User.email ex_alice_row)))
                        ex_alice_row) res0 /\
    ex_w3 = ex_w3.
Proof.
  apply (login_session_needs_password ex_env4 (ex_login "alice@example.org" "pw-a") ex_w3
           ex_w3
           (json (JsonSession (generateToken ex_env4 "user-1" "alice@example.org")
                              ex_alice_row) res0)
           (generateToken ex_env4 "user-1" "alice@example.org") ex_alice_row);
    vm_compute; reflexivity.
Defined.

Lemma upload_needs_a_file_witness :
  serve ex_env4 (ex_get PostDocumentsUpload ex_alice EmptyString) ex_w3
  = (Respond (json_message 400 "No file uploaded" res0), ex_w3).
Proof.
  apply (proj1 (upload_needs_a_file ex_env4
                  (ex_get PostDocumentsUpload ex_alice EmptyString) ex_w3 ex_alice_user
                  eq_refl ltac:(vm_compute; reflexivity))).
  reflexivity.
Defined.

Lemma upload_takes_one_file_witness :
  exists message,
    serve ex_env4 ex_two_files ex_w3 = (Respond (json_message 400 message res0), ex_w3) /\
    (fields_within_limit (mkForm [FileField ex_pdf; FileField ex_pdf]) = true ->
     fieldname ex_pdf = "file" -> fileFilter ex_pdf = Ok true ->
     (byteLength (buffer ex_pdf) < fileSize)%N ->
     message = "Unexpected field").
Proof.
  apply (upload_takes_one_file ex_env4 ex_two_files ex_w3 ex_alice_user
           (mkForm [FileField ex_pdf; FileField ex_pdf]) ex_pdf ex_pdf []).
  - reflexivity.
  - vm_compute. reflexivity.
  - reflexivity.
  - reflexivity.
  - discriminate.
  - discriminate.
Defined.

(** ** The check of the browser and the check of the server *)

Lemma ext_loop_no_dot s : forall i,
  Path.plain s = true ->
  Path.startDot (Path.ext_loop i s Path.ext_init) = (-1)%Z /\
  Path.ext_done (Path.ext_loop i s Path.ext_init) = false.
Proof.
  induction s as [| c s IH]; intros i Hplain; [split; reflexivity |].
  simpl in Hplain. apply andb_prop in Hplain as [Hc Hplain].
  apply andb_prop in Hc as [Hdot Hslash].
  apply negb_true_iff in Hdot, Hslash.
  destruct (IH (i + 1)%Z Hplain) as [Hstart Hdone].
  cbn [Path.ext_loop]. unfold Path.ext_step. rewrite Hdone, Hslash, Hdot.
  destruct (Path.ext_end _ =? -1)%Z; cbn [Path.startDot Path.ext_done];
    rewrite ?Hstart; cbn [Z.eqb Pos.eqb negb]; rewrite ?Hstart, ?Hdone; split; reflexivity.
Qed.

Lemma extname_no_dot s : Path.plain s = true -> Path.extname s = EmptyString.
Proof.
  intros Hplain. unfold Path.extname.
  destruct (ext_loop_no_dot s 0 Hplain) as [-> _]. reflexivity.
Qed.

(** X18: the check of the upload form is weaker than the check of the
    server. A file multer accepts ([fileFilter] passes it, and it is
    within the limit) passes [validateFile]; but [validateFile] looks at
    the type and the size only: a file of type [application/pdf] within
    the limit whose name has no dot passes it, and [fileFilter] refuses
    it with [Only PDF files are allowed]. *)
Theorem client_check_weaker part :
  (fileFilter part = Ok true -> (byteLength (buffer part) <= fileSize)%N ->
   validateFile (browser_file part) = None) /\
  (mimetype part = "application/pdf" -> (byteLength (buffer part) <= fileSize)%N ->
   Path.plain (originalname part) = true ->
   validateFile (browser_file part) = None /\
   fileFilter part = Throw (Error "Only PDF files are allowed")).
Proof.
  assert (Hclient : mimetype part = "application/pdf" ->
                    (byteLength (buffer part) <= fileSize)%N ->
                    validateFile (browser_file part) = None).
  { intros Hmime Hsize. unfold validateFile, browser_file. cbn [file_type file_size].
    rewrite Hmime. cbn [negb]. change MAX_FILE_SIZE with fileSize.
    apply N.ltb_ge in Hsize. rewrite Hsize.
    reflexivity. }
  split.
  - intros Hfilter Hsize. apply Hclient; [| exact Hsize].
    unfold fileFilter in Hfilter.
    destruct (mimetype part =? PDF) eqn:Hmime; [| discriminate Hfilter].
    apply String.eqb_eq in Hmime. exact Hmime.
  - intros Hmime Hsize Hplain. split; [apply Hclient; assumption |].
    apply fileFilter_rejects. intros [_ Hext].
    rewrite (extname_no_dot _ Hplain) in Hext. discriminate Hext.
Qed.

Lemma client_check_weaker_witness :
  validateFile (browser_file ex_no_extension) = None /\
  fileFilter ex_no_extension = Throw (Error "Only PDF files are allowed").
Proof.
  apply (proj2 (client_check_weaker ex_no_extension)); vm_compute; try reflexivity.
  discriminate.
Defined.

(** ** The header of a download *)

Lemma encode_char_safe c :
  forallb (fun x => Js.uri_unreserved x || Js.is_percent x)
          (list_ascii_of_string (Js.encode_char c)) = true.
Proof. destruct c as [[] [] [] [] [] [] [] []]; vm_compute; reflexivity. Qed.

Lemma list_ascii_of_string_app s t :
  list_ascii_of_string (s ++ t) = (list_ascii_of_string s ++ list_ascii_of_string t)%list.
Proof.
  induction s as [| c s IH]; [reflexivity |].
  change (String c s ++ t) with (String c (s ++ t)). simpl. by rewrite IH.
Qed.

Lemma encodeURIComponent_safe s c :
  In c (list_ascii_of_string (Js.encodeURIComponent s)) ->
  Js.uri_unreserved c || Js.is_percent c = true.
Proof.
  induction s as [| a s IH]; simpl; [intros [] |].
  rewrite list_ascii_of_string_app. intros Hin. apply in_app_or in Hin as [Hin | Hin].
  - pose proof (encode_char_safe a) as Hsafe. rewrite forallb_forall in Hsafe.
    apply Hsafe, Hin.
  - apply IH, Hin.
Qed.

Lemma safe_char_printable c :
  Js.uri_unreserved c || Js.is_percent c = true ->
  (32 < Js.code c < 127)%N /\ Js.code c <> 34%N /\ Js.code c <> 59%N /\ Js.code c <> 92%N.
Proof.
  destruct c as [[] [] [] [] [] [] [] []]; vm_compute; intros Hsafe;
    first [discriminate Hsafe | repeat split; intros; discriminate].
Qed.

(** X19: a filename cannot break the [Content-Disposition] header of a
    download. Whatever the original filename, what stands between the two
    double quotes of the header is made of printable ASCII characters
    other than the double quote, the semicolon and the backslash, and it
    decodes back to the original filename. *)
Theorem attachment_header_safe d :
  exists name,
    attachment d = "attachment; filename=" ++ dquote ++ name ++ dquote /\
    Js.decodeURIComponent name = Some (Document.originalFilename d) /\
    forall c, In c (list_ascii_of_string name) ->
              (32 < Js.code c < 127)%N /\
              Js.code c <> 34%N /\ Js.code c <> 59%N /\ Js.code c <> 92%N.
Proof.
  exists (Js.encodeURIComponent (Document.originalFilename d)).
  split; [reflexivity |]. split; [apply decode_encodeURIComponent |].
  intros c Hin. apply safe_char_printable, (encodeURIComponent_safe _ _ Hin).
Qed.

(** ** What the table of documents holds *)

Lemma slice0_length n : forall s, String.length (Js.slice0 n s) <= n.
Proof.
  unfold Js.slice0. induction n as [| n IH]; intros [| c s]; simpl; try lia.
  specialize (IH s). lia.
Qed.

Lemma slice0_nonempty n s : s <> EmptyString -> Js.slice0 (S n) s <> EmptyString.
Proof. unfold Js.slice0. destruct s as [| c s]; [congruence |]. discriminate. Qed.

Lemma fileFilter_named file : fileFilter file = Ok true -> originalname file <> EmptyString.
Proof.
  unfold fileFilter. intros Hfilter Hname. rewrite Hname in Hfilter.
  rewrite andb_false_r in Hfilter. discriminate Hfilter.
Qed.

Lemma category_or_other_nonempty category c :
  category_or_other category = BString c -> c <> EmptyString.
Proof.
  unfold category_or_other. destruct category as [[s |] |]; [| discriminate | ].
  - destruct (Js.truthy s) eqn:Hs; intros [= <-]; [| discriminate].
    unfold Js.truthy in Hs. apply negb_true_iff, String.eqb_neq in Hs. exact Hs.
  - intros [= <-]. discriminate.
Qed.

Lemma uploaded_row_stored env req uid file category c :
  upload_single req = Ok (Some file, category) ->
  category_or_other category = BString c ->
  stored_as_uploaded (uploaded_row env uid file c).
Proof.
  intros Hmulter Hc.
  apply upload_single_file in Hmulter as (form & _ & _ & _ & Hfilter & Hsize & _).
  unfold stored_as_uploaded, uploaded_row. cbn.
  split; [reflexivity |]. split; [exact Hsize |]. split; [eauto |].
  split; [reflexivity |]. split; [apply slice0_length |].
  split; [apply (slice0_nonempty 254), fileFilter_named, Hfilter |].
  eapply category_or_other_nonempty, Hc.
Qed.

(** X20: every row of [documents] is as the upload route writes it. In
    every state the portal reaches, a row has the MIME type
    [application/pdf], a size short of the limit of multer, a filename that
    ends in [.pdf], the path [uploads/] followed by that filename, an
    original filename of 1 to 255 characters and a category that is not
    empty. *)
Theorem stored_documents_invariant (w : Portal) :
  reachable w ->
  forall d, In d (documents (db w)) -> stored_as_uploaded d.
Proof.
  induction 1 as [| env req w Hreach IH]; intros d Hin; [destruct Hin |].
  destruct (serve_effect env req w) as (_ & _ & Hdocs). unfold documents_effect in Hdocs.
  destruct Hdocs as [Hsame | [(Hroute & _) | (_ & _ & Hdel)]].
  - apply IH. congruence.
  - destruct (serve_upload_cases env req w Hroute)
      as [(r & _ & _ & Hdb)
         | (user & file & category & c & _ & Hmulter & Hc & _ & _ & Hrun)].
    + apply IH. congruence.
    + rewrite Hrun in Hin. simpl in Hin.
      apply in_app_or in Hin as [Hin | [<- | []]]; [apply IH, Hin |].
      eapply uploaded_row_stored; eauto.
  - rewrite Hdel in Hin. apply filter_In in Hin as [Hin _]. apply IH, Hin.
Qed.

Lemma stored_documents_invariant_witness :
  stored_as_uploaded
    (Document.mk "doc-2" "obj-2.pdf" "lab results.pdf" "uploads/obj-2.pdf" 2048
                 "application/pdf" "referral" "user-1" 200).
Proof.
  apply (stored_documents_invariant ex_w3 ex_w3_reachable).
  vm_compute. left. reflexivity.
Defined.

(** ** An upload, then its download *)

Lemma has_document_find id d :
  has_document id d = false -> document_with_id id d = None.
Proof.
  unfold has_document, document_with_id. intros Hnone.
  destruct (List.find _ _) as [doc |] eqn:Hfind; [| reflexivity].
  apply find_some in Hfind as [Hin Heq].
  assert (Hex : existsb (fun x => Document.id x =? id) (documents d) = true)
    by (apply existsb_exists; eauto).
  congruence.
Qed.

(** X21: what was uploaded is what comes back. After an upload answered
    with 201 and the row [d], a download of the id of [d] streams the
    bytes multer took from the form, with status 200 and the filename of
    [d] in the header, to the user the row names; any other authenticated
    user gets 403. The download leaves the state as the upload left
    it. *)
Theorem upload_then_download env env' req req' (w : Portal) d user' :
  route req = PostDocumentsUpload ->
  fst (serve env req w) = Respond (json (JsonDocument d) (set_status 201 res0)) ->
  route req' = GetDocumentDownload ->
  params_id req' = Document.id d ->
  isAuthenticated env' req' = Continue user' ->
  exists file category,
    upload_single req = Ok (Some file, category) /\
    serve env' req' (snd (serve env req w))
    = (Respond
         (if Document.userId d =? claims_sub user'
          then mkResponse 200
                 [("Content-Disposition", attachment d); ("Content-Type", PDF)]
                 (Stream (buffer file) true)
          else json_message 403 "Access denied" res0),
       snd (serve env req w)).
Proof.
  intros Hroute Hanswer Hroute' Hid Hauth'.
  destruct (serve_upload_cases env req w Hroute)
    as [(r & Hr & Hstatus & _)
       | (user & file & category & c & _ & Hmulter & _ & _ & Hnew & Hrun)].
  { rewrite Hr in Hanswer. injection Hanswer as ->. destruct Hstatus. reflexivity. }
  exists file, category. split; [exact Hmulter |].
  rewrite Hrun in Hanswer |- *. cbn [fst snd] in *.
  injection Hanswer as <-.
  rewrite (serve_guarded _ _ _ _ Hauth'), Hroute'. unfold answer.
  match goal with |- context [downloadDocument ?u ?i ?w2] =>
    destruct (downloadDocument_spec u i w2) as (r & -> & Hr) end.
  f_equal. f_equal. rewrite Hid in Hr.
  unfold document_with_id in Hr. cbn [db documents os online objects] in Hr.
  rewrite (find_app_new _ _ _ (has_document_find _ _ Hnew)) in Hr
    by apply String.eqb_refl.
  destruct (_ =? claims_sub user'); [| exact Hr].
  cbn [uploaded_row Document.filepath] in Hr. rewrite lookup_insert_eq in Hr. exact Hr.
Qed.

Lemma upload_then_download_witness :
  exists file category,
    upload_single (ex_upload ex_alice [] ex_pdf) = Ok (Some file, category) /\
    serve ex_env5 (ex_get GetDocumentDownload ex_bob "doc-4")
          (snd (serve ex_env4 (ex_upload ex_alice [] ex_pdf) ex_w3))
    = (Respond
         (if Document.userId (uploaded_row ex_env4 "user-1" ex_pdf "other")
             =? claims_sub (mkReqUser "user-3" "bob@example.org" "user-3")
          then mkResponse 200
                 [("Content-Disposition",
                   attachment (uploaded_row ex_env4 "user-1" ex_pdf "other"));
                  ("Content-Type", PDF)]
                 (Stream (buffer file) true)
          else json_message 403 "Access denied" res0),
       snd (serve ex_env4 (ex_upload ex_alice [] ex_pdf) ex_w3)).
Proof.
  apply (upload_then_download ex_env4 ex_env5 (ex_upload ex_alice [] ex_pdf)
           (ex_get GetDocumentDownload ex_bob "doc-4") ex_w3
           (uploaded_row ex_env4 "user-1" ex_pdf "other")
           (mkReqUser "user-3" "bob@example.org" "user-3"));
    vm_compute; reflexivity.
Defined.

(** ** The page *)

Lemma lower_char_idem c : Js.lower_char (Js.lower_char c) = Js.lower_char c.
Proof. destruct c as [[] [] [] [] [] [] [] []]; vm_compute; reflexivity. Qed.

Lemma toLowerCase_idem s : Js.toLowerCase (Js.toLowerCase s) = Js.toLowerCase s.
Proof.
  induction s as [| c s IH]; [reflexivity |]. simpl. by rewrite lower_char_idem, IH.
Qed.

Lemma toLowerCase_empty s : (Js.toLowerCase s =? EmptyString) = (s =? EmptyString).
Proof. destruct s; reflexivity. Qed.

Lemma prefix_refl s : String.prefix s s = true.
Proof.
  induction s as [| c s IH]; [reflexivity |]. simpl.
  destruct (ascii_dec c c); [exact IH | congruence].
Qed.

Lemma filter_filter {A} (f g : A -> bool) l :
  List.filter g (List.filter f l) = List.filter (fun x => f x && g x) l.
Proof.
  induction l as [| a l IH]; [reflexivity |]. simpl.
  destruct (f a); simpl; [destruct (g a) |]; by rewrite IH.
Qed.

(** X22: the search of the page. With an empty search box and the
    category [all] every document is shown; the search does not depend on
    the case of the query, and a document whose name is the query up to
    case is found; searching and then choosing a category is the same as
    doing both at once; and what is shown is among the documents, of the
    chosen category or of any when it is [all]. *)
Theorem filteredDocuments_search docs q c :
  filteredDocuments docs EmptyString "all" = docs /\
  filteredDocuments docs (Js.toLowerCase q) c = filteredDocuments docs q c /\
  filteredDocuments (filteredDocuments docs q "all") EmptyString c
  = filteredDocuments docs q c /\
  (forall d, In d docs ->
             Js.toLowerCase (Document.originalFilename d) = Js.toLowerCase q ->
             In d (filteredDocuments docs q "all")) /\
  (forall d, In d (filteredDocuments docs q c) ->
             In d docs /\ (c = "all" \/ Document.category d = c)).
Proof.
  unfold filteredDocuments. split; [| split; [| split; [| split]]].
  - rewrite (filter_ext _ (fun _ => true)) by reflexivity.
    induction docs as [| d docs IH]; [reflexivity |]. simpl. by rewrite IH.
  - apply filter_ext. intros d. by rewrite toLowerCase_empty, toLowerCase_idem.
  - rewrite filter_filter. apply filter_ext. intros d.
    change (EmptyString =? EmptyString) with true.
    change ("all" =? "all") with true.
    cbn [orb andb]. by rewrite ?orb_true_r, ?andb_true_r.
  - intros d Hin Hname. apply filter_In. split; [exact Hin |].
    change ("all" =? "all") with true. cbn [orb]. rewrite andb_true_r.
    apply orb_true_iff. right. rewrite Hname.
    destruct (Js.toLowerCase q) as [| a s];
      cbn [Js.includes]; rewrite prefix_refl; reflexivity.
  - intros d Hin. apply filter_In in Hin as [Hin Hmatch]. split; [exact Hin |].
    apply andb_prop in Hmatch as [_ Hc].
    apply orb_prop in Hc as [Hc | Hc]; apply String.eqb_eq in Hc; auto.
Qed.

Lemma column_truthy_nonempty c :
  column_truthy c = true -> default EmptyString c <> EmptyString.
Proof.
  destruct c as [s |]; [| discriminate]. simpl. unfold Js.truthy.
  intros Hs. apply negb_true_iff, String.eqb_neq in Hs. exact Hs.
Qed.

(** X23: the header always shows a name. [getUserDisplayName] is never
    empty: it is the first and the last name when both are set, else the
    email when it is set, else [User]. *)
Theorem getUserDisplayName_nonempty user :
  getUserDisplayName user <> EmptyString.
Proof.
  unfold getUserDisplayName. destruct user as [u |]; [| discriminate].
  destruct (column_truthy (User.firstName u)) eqn:Hfirst; simpl.
  - destruct (column_truthy (User.lastName u)); simpl.
    + apply column_truthy_nonempty in Hfirst.
      destruct (default EmptyString (User.firstName u)); [congruence | discriminate].
    + destruct (column_truthy (User.email u)) eqn:Hemail; [| discriminate].
      apply column_truthy_nonempty, Hemail.
  - destruct (column_truthy (User.email u)) eqn:Hemail; [| discriminate].
    apply column_truthy_nonempty, Hemail.
Qed.
